(** * MYNT-EYE-D SDK: the camera session coordinator

    A shallow embedding of [src/mynteye/internal/camera_p.cc]
    ([CameraPrivate]) and the properties its specification states about
    the open/close life cycle, the activation of side-channel tracking,
    the descriptor cache and the derivation of stream intrinsics.

    [CameraPrivate] owns four collaborators ([Device], [Channels],
    [Motions], [Streams]) whose code lives in other translation units.
    The embedding is parametric in them: each collaborator is an
    interface (a type class), every call the coordinator makes on one of
    them is recorded in a trace, and the coordinator's methods are
    programs in a small state-and-trace monad over the object's fields. *)

From Stdlib Require Import ZArith NArith DecimalString DecimalPos.
From stdpp Require Import base option list strings vector.

Local Open Scope Z_scope.

Declare Scope cam_scope.
Delimit Scope cam_scope with cam.

(* ================================================================= *)
(** ** Plain data *)

(** [ErrorCode]: the enumerators [CameraPrivate::Open] returns. *)
Inductive ErrorCode : Set :=
  | SUCCESS
  | ERROR_FAILURE
  | ERROR_CAMERA_OPEN_FAILED.

#[global] Instance ErrorCode_eq_dec : EqDecision ErrorCode.
Proof. solve_decision. Defined.

(** [Descriptor]: the field tags [GetDescriptor] switches on.  A C++
    [enum class] object can hold any value of its underlying type;
    [Descriptor_other raw] stands for every value that is none of the
    eight enumerators named in the switch (the [default:] label). *)
Inductive Descriptor : Set :=
  | DEVICE_NAME
  | SERIAL_NUMBER
  | FIRMWARE_VERSION
  | HARDWARE_VERSION
  | SPEC_VERSION
  | LENS_TYPE
  | IMU_TYPE
  | NOMINAL_BASELINE
  | Descriptor_other (raw : N).

Definition recognized (desc : Descriptor) : bool :=
  match desc with Descriptor_other _ => false | _ => true end.

Inductive LogLevel : Set := LOGD | LOGI | LOGW | LOGE.

(** The two closures the coordinator hands to the side channel:
    [std::bind(&Motions::OnImuDataCallback, motions_, _1)] and
    [std::bind(&Streams::OnImageInfoCallback, streams_, _1)]. *)
Inductive imu_data_callback_t : Set := bind_Motions_OnImuDataCallback.
Inductive img_info_callback_t : Set := bind_Streams_OnImageInfoCallback.

(** Types declared in headers outside this translation unit and used
    here only as opaque payloads.  [scalar] is the type of calibration
    numbers: the coordinator only copies them. *)
Class DeviceTypes : Type := {
  OpenParams : Type;
  StreamMode : Type;
  ImageType : Type;
  scalar : Type;
  scalar_zero : scalar;
  Version : Type;
  Version_default : Version;
  Version_to_string : Version → string;
  HwType : Type;
  HwType_default : HwType;
  HwType_to_string : HwType → string;
  ImuIntrinsics : Type;
  MotionExtrinsics : Type;
}.

Section Data.
Context `{DT : DeviceTypes}.

(** [device::Descriptors] *)
Record Descriptors : Type := mkDescriptors {
  name : string;
  serial_number : string;
  firmware_version : Version;
  hardware_version : Version;
  spec_version : Version;
  lens_type : HwType;
  imu_type : HwType;
  nominal_baseline : N;
}.

(** The object [std::make_shared<device::Descriptors>()] allocates. *)
Definition Descriptors_new : Descriptors :=
  {| name := ""; serial_number := "";
     firmware_version := Version_default;
     hardware_version := Version_default;
     spec_version := Version_default;
     lens_type := HwType_default; imu_type := HwType_default;
     nominal_baseline := 0%N |}.

(** [std::to_string] on an unsigned integer: its decimal digits. *)
Definition std_to_string (n : N) : string :=
  NilZero.string_of_uint (N.to_uint n).

Record MotionIntrinsics : Type := mkMotionIntrinsics {
  accel : ImuIntrinsics;
  gyro : ImuIntrinsics;
}.

(** [Channels::imu_params_t] *)
Record imu_params_t : Type := mk_imu_params {
  ok : bool;
  in_accel : ImuIntrinsics;
  in_gyro : ImuIntrinsics;
  ex_left_to_imu : MotionExtrinsics;
}.

(** [CameraCalibration]: the raw record the transport returns.  C arrays
    are lists; a read at an index is a [lookup], which has no value
    outside the array. *)
Record CameraCalibration : Type := mkCameraCalibration {
  InImgWidth : Z;
  InImgHeight : Z;
  CamMat1 : list scalar;
  CamDist1 : list scalar;
  CamMat2 : list scalar;
  CamDist2 : list scalar;
}.

(** [CameraIntrinsics]; [coeffs] is the five-slot array [coeffs[5]]. *)
Record CameraIntrinsics : Type := mkCameraIntrinsics {
  width : Z;
  height : Z;
  fx : scalar;
  fy : scalar;
  cx : scalar;
  cy : scalar;
  coeffs : vec scalar 5;
}.

Record StreamIntrinsics : Type := mkStreamIntrinsics {
  left : CameraIntrinsics;
  right : CameraIntrinsics;
}.

Definition CameraIntrinsics_new : CameraIntrinsics :=
  {| width := 0; height := 0;
     fx := scalar_zero; fy := scalar_zero;
     cx := scalar_zero; cy := scalar_zero;
     coeffs := vreplicate 5 scalar_zero |}.

(** The object [std::make_shared<StreamIntrinsics>()] allocates. *)
Definition StreamIntrinsics_new : StreamIntrinsics :=
  {| left := CameraIntrinsics_new; right := CameraIntrinsics_new |}.

End Data.

(* ================================================================= *)
(** ** Collaborator interfaces

    One class per collaborating object.  A method that may change its
    object returns the new object; [Is...] queries only observe. *)

(** [Device]: the transport layer. *)
Class DeviceApi `{DT : DeviceTypes} : Type := {
  Device : Type;
  Device_Open : OpenParams → Device → bool * Device;
  Device_IsOpened : Device → bool;
  Device_Close : Device → Device;
  Device_GetCameraCalibration : StreamMode → Device → CameraCalibration * Device;
}.

(** [Channels]: the side channel.  [GetFiles] receives the descriptor
    record to fill through a pointer and reports success; the record it
    leaves behind and the inertial parameters it wrote are part of its
    result. *)
Class ChannelsApi `{DT : DeviceTypes} : Type := {
  Channels : Type;
  Channels_IsAvaliable : Channels → bool;
  Channels_GetFiles :
    Descriptors → Channels → (bool * Descriptors * imu_params_t) * Channels;
  Channels_SetImuDataCallback : imu_data_callback_t → Channels → Channels;
  Channels_SetImgInfoCallback : img_info_callback_t → Channels → Channels;
  Channels_IsHidTracking : Channels → bool;
  Channels_IsHidAvaliable : Channels → bool;
  Channels_StartHidTracking : Channels → bool * Channels;
  Channels_StopHidTracking : Channels → Channels;
}.

(** [Motions]: the inertial-sample collaborator. *)
Class MotionsApi `{DT : DeviceTypes} : Type := {
  Motions : Type;
  Motions_IsMotionDatasEnabled : Motions → bool;
  Motions_EnableMotionDatas : N → Motions → Motions;
  Motions_SetMotionIntrinsics : MotionIntrinsics → Motions → Motions;
}.

(** [Streams]: the stream collaborator. *)
Class StreamsApi `{DT : DeviceTypes} : Type := {
  Streams : Type;
  Streams_IsImageInfoEnabled : Streams → bool;
  Streams_EnableImageInfo : bool → Streams → Streams;
  Streams_EnableStreamData : ImageType → Streams → Streams;
  Streams_OnCameraOpen : Streams → Streams;
  Streams_OnCameraClose : Streams → Streams;
}.

(* ================================================================= *)
(** ** The coordinator *)

Section Coordinator.
Context `{DT : DeviceTypes}.
Context `{DA : !DeviceApi} `{CA : !ChannelsApi}
        `{MA : !MotionsApi} `{SA : !StreamsApi}.

(** *** Calls and traces *)

Inductive DeviceCall : Type :=
  | call_Device_Open (params : OpenParams)
  | call_Device_IsOpened
  | call_Device_Close
  | call_Device_GetCameraCalibration (mode : StreamMode).

Inductive ChannelsCall : Type :=
  | call_IsAvaliable
  | call_GetFiles
  | call_SetImuDataCallback (cb : imu_data_callback_t)
  | call_SetImgInfoCallback (cb : img_info_callback_t)
  | call_IsHidTracking
  | call_IsHidAvaliable
  | call_StartHidTracking
  | call_StopHidTracking.

Inductive MotionsCall : Type :=
  | call_IsMotionDatasEnabled
  | call_EnableMotionDatas (max_size : N)
  | call_SetMotionIntrinsics.

Inductive StreamsCall : Type :=
  | call_IsImageInfoEnabled
  | call_EnableImageInfo (sync : bool)
  | call_EnableStreamData (type : ImageType)
  | call_OnCameraOpen
  | call_OnCameraClose.

Inductive Event : Type :=
  | OnDevice (c : DeviceCall)
  | OnChannels (c : ChannelsCall)
  | OnMotions (c : MotionsCall)
  | OnStreams (c : StreamsCall)
  | Log (lvl : LogLevel) (msg : string).

Definition channels_calls (t : list Event) : list ChannelsCall :=
  omap (λ e, match e with OnChannels c => Some c | _ => None end) t.

Definition device_calls (t : list Event) : list DeviceCall :=
  omap (λ e, match e with OnDevice c => Some c | _ => None end) t.

(** *** The object *)

(** The data members of [CameraPrivate] the modelled methods touch.  A
    null [std::shared_ptr] is [None]. *)
Record CameraPrivate : Type := mkCameraPrivate {
  device_ : Device;
  channels_ : Channels;
  motions_ : Motions;
  streams_ : Streams;
  descriptors_ : option Descriptors;
  stream_intrinsics_ : option StreamIntrinsics;
  motion_intrinsics_ : option MotionIntrinsics;
  motion_extrinsics_ : option MotionExtrinsics;
}.

Definition set_device (d : Device) (s : CameraPrivate) : CameraPrivate :=
  mkCameraPrivate d (channels_ s) (motions_ s) (streams_ s) (descriptors_ s)
    (stream_intrinsics_ s) (motion_intrinsics_ s) (motion_extrinsics_ s).
Definition set_channels (c : Channels) (s : CameraPrivate) : CameraPrivate :=
  mkCameraPrivate (device_ s) c (motions_ s) (streams_ s) (descriptors_ s)
    (stream_intrinsics_ s) (motion_intrinsics_ s) (motion_extrinsics_ s).
Definition set_motions (m : Motions) (s : CameraPrivate) : CameraPrivate :=
  mkCameraPrivate (device_ s) (channels_ s) m (streams_ s) (descriptors_ s)
    (stream_intrinsics_ s) (motion_intrinsics_ s) (motion_extrinsics_ s).
Definition set_streams (st : Streams) (s : CameraPrivate) : CameraPrivate :=
  mkCameraPrivate (device_ s) (channels_ s) (motions_ s) st (descriptors_ s)
    (stream_intrinsics_ s) (motion_intrinsics_ s) (motion_extrinsics_ s).
Definition set_descriptors (d : option Descriptors) (s : CameraPrivate)
  : CameraPrivate :=
  mkCameraPrivate (device_ s) (channels_ s) (motions_ s) (streams_ s) d
    (stream_intrinsics_ s) (motion_intrinsics_ s) (motion_extrinsics_ s).
Definition set_stream_intrinsics (i : option StreamIntrinsics)
  (s : CameraPrivate) : CameraPrivate :=
  mkCameraPrivate (device_ s) (channels_ s) (motions_ s) (streams_ s)
    (descriptors_ s) i (motion_intrinsics_ s) (motion_extrinsics_ s).
Definition set_motion_intrinsics (i : option MotionIntrinsics)
  (s : CameraPrivate) : CameraPrivate :=
  mkCameraPrivate (device_ s) (channels_ s) (motions_ s) (streams_ s)
    (descriptors_ s) (stream_intrinsics_ s) i (motion_extrinsics_ s).
Definition set_motion_extrinsics (e : option MotionExtrinsics)
  (s : CameraPrivate) : CameraPrivate :=
  mkCameraPrivate (device_ s) (channels_ s) (motions_ s) (streams_ s)
    (descriptors_ s) (stream_intrinsics_ s) (motion_intrinsics_ s) e.

(** *** The monad: a method is a state transformer that also emits the
    collaborator calls and log lines it made, oldest first. *)

Definition M (A : Type) : Type := CameraPrivate → A * CameraPrivate * list Event.

Definition ret {A} (a : A) : M A := λ s, (a, s, []).

Definition result {A} (r : A * CameraPrivate * list Event) : A := r.1.1.
Definition state_after {A} (r : A * CameraPrivate * list Event)
  : CameraPrivate := r.1.2.
Definition trace {A} (r : A * CameraPrivate * list Event) : list Event := r.2.

Definition bind {A B} (m : M A) (f : A → M B) : M B :=
  λ s, let '(a, s1, t1) := m s in
       let '(b, s2, t2) := f a s1 in
       (b, s2, t1 ++ t2).


Notation "x ← y ; z" := (bind y (λ x, z))
  (at level 20, y at level 100, z at level 200, only parsing) : cam_scope.
Notation "x ;; z" := (bind x (λ _, z))
  (at level 100, z at level 200, only parsing, right associativity)
  : cam_scope.
Local Open Scope cam_scope.

(** One call on a collaborator: run it on the member, store the object
    it leaves, record the call. *)
Definition on_device {A} (c : DeviceCall) (f : Device → A * Device) : M A :=
  λ s, let r := f (device_ s) in (r.1, set_device r.2 s, [OnDevice c]).
Definition on_channels {A} (c : ChannelsCall) (f : Channels → A * Channels)
  : M A :=
  λ s, let r := f (channels_ s) in (r.1, set_channels r.2 s, [OnChannels c]).
Definition on_motions {A} (c : MotionsCall) (f : Motions → A * Motions) : M A :=
  λ s, let r := f (motions_ s) in (r.1, set_motions r.2 s, [OnMotions c]).
Definition on_streams {A} (c : StreamsCall) (f : Streams → A * Streams) : M A :=
  λ s, let r := f (streams_ s) in (r.1, set_streams r.2 s, [OnStreams c]).

Definition query {X A} (f : X → A) : X → A * X := λ x, (f x, x).
Definition command {X} (f : X → X) : X → unit * X := λ x, (tt, f x).

(** [LOGI], [LOGW], [LOGE]: the level and the message; the file and
    line prefix some messages carry is left out. *)
Definition log (lvl : LogLevel) (msg : string) : M unit :=
  λ s, (tt, s, [Log lvl msg]).

Definition get {A} (f : CameraPrivate → A) : M A := λ s, (f s, s, []).
Definition modify (f : CameraPrivate → CameraPrivate) : M unit :=
  λ s, (tt, f s, []).

(** C++ [a && b]: [b] is evaluated only when [a] holds. *)
Definition and_then (a b : M bool) : M bool :=
  x ← a; if x then b else ret false.

Definition not_ (a : M bool) : M bool := x ← a; ret (negb x).

(** *** Collaborator calls as the methods spell them *)

Definition device_IsOpened : M bool :=
  on_device call_Device_IsOpened (query Device_IsOpened).
Definition device_Open (params : OpenParams) : M bool :=
  on_device (call_Device_Open params) (Device_Open params).
Definition device_Close : M unit :=
  on_device call_Device_Close (command Device_Close).
Definition device_GetCameraCalibration (mode : StreamMode)
  : M CameraCalibration :=
  on_device (call_Device_GetCameraCalibration mode)
    (Device_GetCameraCalibration mode).

Definition channels_IsAvaliable : M bool :=
  on_channels call_IsAvaliable (query Channels_IsAvaliable).
Definition channels_GetFiles (d : Descriptors)
  : M (bool * Descriptors * imu_params_t) :=
  on_channels call_GetFiles (Channels_GetFiles d).
Definition channels_SetImuDataCallback (cb : imu_data_callback_t) : M unit :=
  on_channels (call_SetImuDataCallback cb)
    (command (Channels_SetImuDataCallback cb)).
Definition channels_SetImgInfoCallback (cb : img_info_callback_t) : M unit :=
  on_channels (call_SetImgInfoCallback cb)
    (command (Channels_SetImgInfoCallback cb)).
Definition channels_IsHidTracking : M bool :=
  on_channels call_IsHidTracking (query Channels_IsHidTracking).
Definition channels_IsHidAvaliable : M bool :=
  on_channels call_IsHidAvaliable (query Channels_IsHidAvaliable).
Definition channels_StartHidTracking : M bool :=
  on_channels call_StartHidTracking Channels_StartHidTracking.
Definition channels_StopHidTracking : M unit :=
  on_channels call_StopHidTracking (command Channels_StopHidTracking).

Definition motions_IsMotionDatasEnabled : M bool :=
  on_motions call_IsMotionDatasEnabled (query Motions_IsMotionDatasEnabled).
Definition motions_EnableMotionDatas (max_size : N) : M unit :=
  on_motions (call_EnableMotionDatas max_size)
    (command (Motions_EnableMotionDatas max_size)).
Definition motions_SetMotionIntrinsics (i : MotionIntrinsics) : M unit :=
  on_motions call_SetMotionIntrinsics (command (Motions_SetMotionIntrinsics i)).

Definition streams_IsImageInfoEnabled : M bool :=
  on_streams call_IsImageInfoEnabled (query Streams_IsImageInfoEnabled).
Definition streams_EnableImageInfo (sync : bool) : M unit :=
  on_streams (call_EnableImageInfo sync) (command (Streams_EnableImageInfo sync)).
Definition streams_EnableStreamData (type : ImageType) : M unit :=
  on_streams (call_EnableStreamData type)
    (command (Streams_EnableStreamData type)).
Definition streams_OnCameraOpen : M unit :=
  on_streams call_OnCameraOpen (command Streams_OnCameraOpen).
Definition streams_OnCameraClose : M unit :=
  on_streams call_OnCameraClose (command Streams_OnCameraClose).

(** *** [CameraPrivate]'s methods, in the order of the source file *)

(** [bool CameraPrivate::IsOpened() const] *)
Definition IsOpened : M bool := device_IsOpened.

(** [bool CameraPrivate::StartDataTracking()] *)
Definition StartDataTracking : M bool :=
  both_off ← and_then (not_ motions_IsMotionDatasEnabled)
                      (not_ streams_IsImageInfoEnabled);
  if both_off then ret false
  else
    me ← motions_IsMotionDatasEnabled;
    (if me then channels_SetImuDataCallback bind_Motions_OnImuDataCallback
     else ret tt);;
    ie ← streams_IsImageInfoEnabled;
    (if ie then channels_SetImgInfoCallback bind_Streams_OnImageInfoCallback
     else ret tt);;
    tracking ← channels_IsHidTracking;
    if tracking then ret true
    else
      unavailable ← not_ channels_IsHidAvaliable;
      if unavailable then
        log LOGW "Data channel is unavaliable, could not track device datas.";;
        ret false
      else channels_StartHidTracking.

(** [void CameraPrivate::StopDataTracking()] *)
Definition StopDataTracking : M unit :=
  tracking ← channels_IsHidTracking;
  if tracking then channels_StopHidTracking else ret tt.

(** [ErrorCode CameraPrivate::Open(const OpenParams& params)] *)
Definition Open (params : OpenParams) : M ErrorCode :=
  opened ← IsOpened;
  if opened then ret SUCCESS
  else
    ok ← device_Open params;
    if negb ok then ret ERROR_FAILURE
    else if ok then
      StartDataTracking;;
      streams_OnCameraOpen;;
      ret SUCCESS
    else ret ERROR_CAMERA_OPEN_FAILED.

(** [void CameraPrivate::Close()] *)
Definition Close : M unit :=
  closed ← not_ IsOpened;
  if closed then ret tt
  else
    StopDataTracking;;
    streams_OnCameraClose;;
    device_Close.

(** [CameraPrivate::~CameraPrivate()]: [Close()], then the device
    pointer is dropped with the object.  ([DBG_LOGD], here and in the
    constructor, is a debug-build trace and is not modelled.) *)
Definition CameraPrivate_dtor : M unit := Close.

(** [void CameraPrivate::EnableImageInfo(bool sync)] *)
Definition EnableImageInfo (sync : bool) : M unit :=
  streams_EnableImageInfo sync;;
  StartDataTracking;;
  ret tt.

(** [void CameraPrivate::EnableStreamData(const ImageType& type)] *)
Definition EnableStreamData (type : ImageType) : M unit :=
  streams_EnableStreamData type.

(** [void CameraPrivate::EnableMotionDatas(std::size_t max_size)] *)
Definition EnableMotionDatas (max_size : N) : M unit :=
  motions_EnableMotionDatas max_size;;
  StartDataTracking;;
  ret tt.

(** [void CameraPrivate::SetMotionIntrinsics(const MotionIntrinsics &in)]:
    the holder is allocated on first use, overwritten, and handed to
    [Motions]. *)
Definition SetMotionIntrinsics (i : MotionIntrinsics) : M unit :=
  modify (set_motion_intrinsics (Some i));;
  motions_SetMotionIntrinsics i.

(** [void CameraPrivate::SetMotionExtrinsics(const MotionExtrinsics &ex)] *)
Definition SetMotionExtrinsics (ex : MotionExtrinsics) : M unit :=
  modify (set_motion_extrinsics (Some ex)).

(** [void CameraPrivate::ReadDeviceFlash()] *)
Definition ReadDeviceFlash : M unit :=
  unavailable ← not_ channels_IsAvaliable;
  if unavailable then
    log LOGW "Data channel is unavaliable, could not read device datas."
  else
    modify (set_descriptors (Some Descriptors_new));;
    read ← channels_GetFiles Descriptors_new;
    let read_ok := read.1.1 in
    let filled := read.1.2 in
    let imu_params := read.2 in
    modify (set_descriptors (Some filled));;
    if negb read_ok then
      log LOGE "Read device descriptors failed. Please upgradeyour firmware to the latest version."
    else
      log LOGI "Device descriptors:";;
      log LOGI ("  name: " +:+ name filled);;
      log LOGI ("  serial_number: " +:+ serial_number filled);;
      log LOGI ("  firmware_version: "
                +:+ Version_to_string (firmware_version filled));;
      log LOGI ("  hardware_version: "
                +:+ Version_to_string (hardware_version filled));;
      log LOGI ("  spec_version: " +:+ Version_to_string (spec_version filled));;
      log LOGI ("  lens_type: " +:+ HwType_to_string (lens_type filled));;
      log LOGI ("  imu_type: " +:+ HwType_to_string (imu_type filled));;
      log LOGI ("  nominal_baseline: "
                +:+ std_to_string (nominal_baseline filled));;
      if ok imu_params then
        SetMotionIntrinsics
          {| accel := in_accel imu_params; gyro := in_gyro imu_params |};;
        SetMotionExtrinsics (ex_left_to_imu imu_params)
      else
        log LOGE "Motion intrinsics & extrinsics not exist".

(** [void CameraPrivate::Init()], run on the freshly made collaborators. *)
Definition Init : M unit :=
  available ← channels_IsAvaliable;
  if available then ReadDeviceFlash else ret tt.

(** [CameraPrivate::CameraPrivate()]: the members start out as the
    collaborator objects just constructed and null holders; [Init]
    runs on them. *)
Definition CameraPrivate_new (d : Device) (c : Channels) (m : Motions)
  (st : Streams) : CameraPrivate :=
  mkCameraPrivate d c m st None None None None.

Definition CameraPrivate_ctor (d : Device) (c : Channels) (m : Motions)
  (st : Streams) : unit * CameraPrivate * list Event :=
  Init (CameraPrivate_new d c m st).

(** [std::string CameraPrivate::GetDescriptor(const Descriptor &desc) const] *)
Definition GetDescriptor (desc : Descriptor) : M string :=
  d ← get descriptors_;
  match d with
  | None =>
      log LOGE "Device information not found";;
      ret ""
  | Some descriptors =>
      match desc with
      | DEVICE_NAME => ret (name descriptors)
      | SERIAL_NUMBER => ret (serial_number descriptors)
      | FIRMWARE_VERSION =>
          ret (Version_to_string (firmware_version descriptors))
      | HARDWARE_VERSION =>
          ret (Version_to_string (hardware_version descriptors))
      | SPEC_VERSION => ret (Version_to_string (spec_version descriptors))
      | LENS_TYPE => ret (HwType_to_string (lens_type descriptors))
      | IMU_TYPE => ret (HwType_to_string (imu_type descriptors))
      | NOMINAL_BASELINE => ret (std_to_string (nominal_baseline descriptors))
      | Descriptor_other _ =>
          log LOGE "Unknown device info";;
          ret ""
      end
  end.

(** [CameraCalibration CameraPrivate::GetCameraCalibration(mode)] *)
Definition GetCameraCalibration (mode : StreamMode) : M CameraCalibration :=
  device_GetCameraCalibration mode.

(** The loop [for (int i = 0; i < 5; i++) dst[i] = src[i];]: [i] runs
    over the five slots of [dst]; a read of [src] past its end has no
    value. *)
Definition copy_coeffs (src : list scalar) (dst : vec scalar 5)
  : option (vec scalar 5) :=
  foldl (λ acc (i : fin 5),
           match acc with
           | None => None
           | Some d =>
               match src !! fin_to_nat i with
               | None => None
               | Some v => Some (vinsert i v d)
               end
           end)
        (Some dst) [0%fin; 1%fin; 2%fin; 3%fin; 4%fin].

(** The assignments to one lens of the holder.  [InImgWidth/2] is C++
    integer division, which truncates. *)
Definition fill_lens (InImgWidth InImgHeight : Z) (CamMat CamDist : list scalar)
  (lens : CameraIntrinsics) : option CameraIntrinsics :=
  match CamMat !! 0%nat, CamMat !! 4%nat, CamMat !! 2%nat, CamMat !! 5%nat with
  | Some m0, Some m4, Some m2, Some m5 =>
      match copy_coeffs CamDist (coeffs lens) with
      | Some c =>
          Some {| width := Z.quot InImgWidth 2;
                  height := InImgHeight;
                  fx := m0; fy := m4; cx := m2; cy := m5;
                  coeffs := c |}
      | None => None
      end
  | _, _, _, _ => None
  end.

(** [StreamIntrinsics CameraPrivate::GetStreamIntrinsics(mode)].  The
    holder is allocated on first use and overwritten in place, left lens
    first.  The result is [None] when an array is read outside its
    bounds, where C++ defines no behaviour; the holder then keeps what
    was written before. *)
Definition GetStreamIntrinsics (mode : StreamMode)
  : M (option StreamIntrinsics) :=
  cached ← get stream_intrinsics_;
  (if cached is None
   then modify (set_stream_intrinsics (Some StreamIntrinsics_new))
   else ret tt);;
  streamData ← GetCameraCalibration mode;
  holder ← get (λ s, default StreamIntrinsics_new (stream_intrinsics_ s));
  match fill_lens (InImgWidth streamData) (InImgHeight streamData)
          (CamMat1 streamData) (CamDist1 streamData) (left holder) with
  | None => ret None
  | Some l =>
      modify (set_stream_intrinsics
                (Some {| left := l; right := right holder |}));;
      match fill_lens (InImgWidth streamData) (InImgHeight streamData)
              (CamMat2 streamData) (CamDist2 streamData) (right holder) with
      | None => ret None
      | Some r =>
          modify (set_stream_intrinsics (Some {| left := l; right := r |}));;
          ret (Some {| left := l; right := r |})
      end
  end.

(** *** Sequences of calls *)

(** Calling [f] on each element of [xs] in turn, one call after the
    other on the same object. *)
Fixpoint for_each {X A} (f : X → M A) (xs : list X) : M (list A) :=
  match xs with
  | [] => ret []
  | x :: xs' => a ← f x; l ← for_each f xs'; ret (a :: l)
  end.

(** The public operations the tracking invariant ranges over. *)
Inductive Operation : Type :=
  | op_Open (params : OpenParams)
  | op_Close
  | op_EnableImageInfo (sync : bool)
  | op_EnableMotionDatas (max_size : N)
  | op_EnableStreamData (type : ImageType).

Definition perform (o : Operation) : M unit :=
  match o with
  | op_Open params => Open params;; ret tt
  | op_Close => Close
  | op_EnableImageInfo sync => EnableImageInfo sync
  | op_EnableMotionDatas max_size => EnableMotionDatas max_size
  | op_EnableStreamData type => EnableStreamData type
  end.

(** The object after construction on the collaborators [d c m st]
    followed by the operations [ops]. *)
Definition session (d : Device) (c : Channels) (m : Motions) (st : Streams)
  (ops : list Operation) : CameraPrivate :=
  state_after
    (for_each perform ops (state_after (CameraPrivate_ctor d c m st))).

(** A state is reachable when some sequence of operations leads to it. *)
Inductive reachable (d : Device) (c : Channels) (m : Motions) (st : Streams)
  : CameraPrivate → Prop :=
  | reachable_ctor :
      reachable d c m st (state_after (CameraPrivate_ctor d c m st))
  | reachable_step s o :
      reachable d c m st s →
      reachable d c m st (state_after (perform o s)).

(** Observations the tracking invariant is stated with. *)
Definition tracking_active (s : CameraPrivate) : bool :=
  Channels_IsHidTracking (channels_ s).
Definition toggle_enabled (s : CameraPrivate) : bool :=
  Motions_IsMotionDatasEnabled (motions_ s)
  || Streams_IsImageInfoEnabled (streams_ s).
Definition tracking_available (s : CameraPrivate) : bool :=
  Channels_IsHidAvaliable (channels_ s).

(** *** Definitions the properties are stated with *)

(** Steps (2) and (3): the inertial-sample callback is registered if
    inertial data is enabled, then the image-info callback if image-info
    is enabled. *)
Definition register_callbacks (me ie : bool) (c : Channels) : Channels :=
  let c1 :=
    if me then Channels_SetImuDataCallback bind_Motions_OnImuDataCallback c
    else c in
  if ie then Channels_SetImgInfoCallback bind_Streams_OnImageInfoCallback c1
  else c1.

(** The registration calls steps (2) and (3) make. *)
Definition registrations (me ie : bool) : list ChannelsCall :=
  (if me then [call_SetImuDataCallback bind_Motions_OnImuDataCallback] else [])
  ++ (if ie then [call_SetImgInfoCallback bind_Streams_OnImageInfoCallback]
      else []).

(** The six steps of the tracking-activation algorithm as the
    specification words them, for the toggles [me] (inertial data) and
    [ie] (image-info) and the channel [c]: the value returned, the
    channel left behind, and the calls made on the channel. *)
Definition tracking_activation (me ie : bool) (c : Channels)
  : bool * Channels * list ChannelsCall :=
  (* (1) neither feature enabled: false, the channel is not touched *)
  if negb me && negb ie then (false, c, [])
  else
    (* (2), (3) (re-)register the callbacks of the enabled features *)
    let c' := register_callbacks me ie c in
    let regs := registrations me ie in
    (* (4) already tracking: true *)
    if Channels_IsHidTracking c' then (true, c', regs ++ [call_IsHidTracking])
    (* (5) unavailable for tracking: false *)
    else if negb (Channels_IsHidAvaliable c') then
      (false, c', regs ++ [call_IsHidTracking; call_IsHidAvaliable])
    (* (6) start tracking and return its result *)
    else
      ((Channels_StartHidTracking c').1, (Channels_StartHidTracking c').2,
       regs ++ [call_IsHidTracking; call_IsHidAvaliable; call_StartHidTracking]).

(** The six steps on the toggles and the channel of an object. *)
Definition activation_of (s : CameraPrivate)
  : bool * Channels * list ChannelsCall :=
  tracking_activation (Motions_IsMotionDatasEnabled (motions_ s))
    (Streams_IsImageInfoEnabled (streams_ s)) (channels_ s).

(** Everything [StartDataTracking] emits, log lines and queries on the
    toggles included. *)
Definition activation_trace (me ie : bool) (c : Channels) : list Event :=
  [OnMotions call_IsMotionDatasEnabled]
  ++ (if me then [] else [OnStreams call_IsImageInfoEnabled])
  ++ if negb me && negb ie then []
     else
       [OnMotions call_IsMotionDatasEnabled]
       ++ (if me then [OnChannels (call_SetImuDataCallback
                                     bind_Motions_OnImuDataCallback)]
           else [])
       ++ [OnStreams call_IsImageInfoEnabled]
       ++ (if ie then [OnChannels (call_SetImgInfoCallback
                                     bind_Streams_OnImageInfoCallback)]
           else [])
       ++ [OnChannels call_IsHidTracking]
       ++ if Channels_IsHidTracking (register_callbacks me ie c) then []
          else
            [OnChannels call_IsHidAvaliable]
            ++ if negb (Channels_IsHidAvaliable (register_callbacks me ie c))
               then [Log LOGW "Data channel is unavaliable, could not track device datas."]
               else [OnChannels call_StartHidTracking].

(** Whether the start request [StartDataTracking] would issue on [s] is
    granted. *)
Definition start_granted (s : CameraPrivate) : bool :=
  (Channels_StartHidTracking
     (register_callbacks (Motions_IsMotionDatasEnabled (motions_ s))
        (Streams_IsImageInfoEnabled (streams_ s)) (channels_ s))).1.

(** The invariant as the specification states it. *)
Definition tracking_iff_enabled_and_available (s : CameraPrivate) : Prop :=
  tracking_active s = toggle_enabled s && tracking_available s.

(** Tracking is never active without an enabled toggle and an available
    channel. *)
Definition active_implies_enabled_and_available (s : CameraPrivate) : Prop :=
  tracking_active s = true →
  toggle_enabled s = true ∧ tracking_available s = true.

(** A channel that grants the start requests made while it is idle and
    reports itself available: the only ones [StartDataTracking] makes. *)
Definition grants_start_when_idle : Prop :=
  ∀ c, Channels_IsHidTracking c = false →
       Channels_IsHidAvaliable c = true →
       (Channels_StartHidTracking c).1 = true.

(** Whether tracking is left suspended by operation [o] run on [s],
    given whether it was suspended before: a [Close] that finds the
    device opened suspends it; an [Open] that opens the device, an
    [EnableImageInfo] and an [EnableMotionDatas], which evaluate the
    activation, end the suspension; nothing else changes it. *)
Definition suspends (o : Operation) (s : CameraPrivate) (before : bool)
  : bool :=
  match o with
  | op_Close => if Device_IsOpened (device_ s) then true else before
  | op_Open params =>
      if Device_IsOpened (device_ s) then before
      else if (Device_Open params (device_ s)).1 then false else before
  | op_EnableImageInfo _ => false
  | op_EnableMotionDatas _ => false
  | op_EnableStreamData _ => before
  end.

Fixpoint suspended_after (ops : list Operation) (s : CameraPrivate)
  (before : bool) : bool :=
  match ops with
  | [] => before
  | o :: ops' =>
      suspended_after ops' (state_after (perform o s)) (suspends o s before)
  end.

(** Whether, at the end of a session, tracking is suspended: [Close] has
    found the device opened and, since then, no [Open] has opened the
    device and neither [EnableImageInfo] nor [EnableMotionDatas] was
    called. *)
Definition tracking_suspended (d : Device) (c : Channels) (m : Motions)
  (st : Streams) (ops : list Operation) : bool :=
  suspended_after ops (state_after (CameraPrivate_ctor d c m st)) false.

(** The invariant with the suspension taken into account. *)
Definition tracking_iff_unless_suspended (s : CameraPrivate)
  (suspended : bool) : Prop :=
  tracking_active s
  = toggle_enabled s && tracking_available s && negb suspended.

(** The calls a trace makes on the inertial-sample and on the stream
    collaborator. *)
Definition motions_calls (t : list Event) : list MotionsCall :=
  omap (λ e, match e with OnMotions c => Some c | _ => None end) t.
Definition streams_calls (t : list Event) : list StreamsCall :=
  omap (λ e, match e with OnStreams c => Some c | _ => None end) t.

(** The claim about the enabling calls as the specification states it:
    each of them sets its flag and then runs [StartDataTracking]. *)
Definition reevaluates_tracking (enable set_flag : M unit) : Prop :=
  ∀ s, enable s = (set_flag;; StartDataTracking;; ret ()) s.

(** ... for image-info, per-stream data and inertial buffering alike. *)
Definition every_enabling_call_reevaluates_tracking : Prop :=
  (∀ sync,
     reevaluates_tracking (EnableImageInfo sync) (streams_EnableImageInfo sync))
  ∧ (∀ type,
       reevaluates_tracking (EnableStreamData type)
         (streams_EnableStreamData type))
  ∧ (∀ max_size,
       reevaluates_tracking (EnableMotionDatas max_size)
         (motions_EnableMotionDatas max_size)).

(** The text of each recognized descriptor field, as the specification
    lists them; no text for a tag that is not recognized. *)
Definition descriptor_field (desc : Descriptor) (d : Descriptors)
  : option string :=
  match desc with
  | DEVICE_NAME => Some (name d)
  | SERIAL_NUMBER => Some (serial_number d)
  | FIRMWARE_VERSION => Some (Version_to_string (firmware_version d))
  | HARDWARE_VERSION => Some (Version_to_string (hardware_version d))
  | SPEC_VERSION => Some (Version_to_string (spec_version d))
  | LENS_TYPE => Some (HwType_to_string (lens_type d))
  | IMU_TYPE => Some (HwType_to_string (imu_type d))
  | NOMINAL_BASELINE => Some (std_to_string (nominal_baseline d))
  | Descriptor_other _ => None
  end.

(** The claim about the cache as the specification states it: after
    construction the descriptor cache is null whenever the channel is
    unavailable or the read reported failure, and [GetDescriptor] then
    returns the empty string for every tag. *)
Definition descriptors_absent_unless_read_succeeded
  (d : Device) (c : Channels) (m : Motions) (st : Streams) : Prop :=
  Channels_IsAvaliable c = false
  ∨ (Channels_GetFiles Descriptors_new c).1.1.1 = false →
  let s := state_after (CameraPrivate_ctor d c m st) in
  descriptors_ s = None ∧ ∀ desc, result (GetDescriptor desc s) = "".

(** What the specification asks of one lens: half the combined width,
    the height, the four entries of the row-major camera matrix at
    offsets 0, 4, 2, 5, and the first five distortion coefficients. *)
Definition lens_derived_from (InImgWidth InImgHeight : Z)
  (CamMat CamDist : list scalar) (lens : CameraIntrinsics) : Prop :=
  width lens = Z.quot InImgWidth 2
  ∧ height lens = InImgHeight
  ∧ CamMat !! 0%nat = Some (fx lens)
  ∧ CamMat !! 4%nat = Some (fy lens)
  ∧ CamMat !! 2%nat = Some (cx lens)
  ∧ CamMat !! 5%nat = Some (cy lens)
  ∧ vec_to_list (coeffs lens) = take 5 CamDist.

End Coordinator.

Notation "x ← y ; z" := (bind y (λ x, z))
  (at level 20, y at level 100, z at level 200, only parsing) : cam_scope.
Notation "x ;; z" := (bind x (λ _, z))
  (at level 100, z at level 200, only parsing, right associativity)
  : cam_scope.

(* ================================================================= *)
(** ** The other methods of [CameraPrivate]

    The methods below need members, payloads and collaborator calls the
    definitions above do not carry; each comes with what it needs. *)

(** What [return {};] value-initializes in [GetMotionIntrinsics] and
    [GetMotionExtrinsics]: the default objects of the two payload types. *)
Class MotionDefaults `{DT : DeviceTypes} : Type := {
  ImuIntrinsics_default : ImuIntrinsics;
  MotionExtrinsics_default : MotionExtrinsics;
}.

(** [Channels::SetFiles(desc, imu_params, spec_version)]: the three
    arguments are pointers, null or not; [ImuParams] is
    [device::ImuParams]. *)
Class ChannelsWriteApi `{CA : ChannelsApi} : Type := {
  ImuParams : Type;
  Channels_SetFiles :
    option Descriptors → option ImuParams → option Version →
    Channels → bool * Channels;
}.

(** The [RotaMat] and [TranMat] arrays of the record
    [Device::GetCameraCalibration(mode)] returns on a device, which
    [CameraCalibration] above leaves out. *)
Class DeviceStereoApi `{DA : DeviceApi} : Type := {
  Device_RotaMat : StreamMode → Device → list scalar;
  Device_TranMat : StreamMode → Device → list scalar;
}.

Section OtherMethods.
Context `{DT : DeviceTypes}.
Context `{DA : !DeviceApi} `{CA : !ChannelsApi}
        `{MA : !MotionsApi} `{SA : !StreamsApi}.
Context `{MD : !MotionDefaults} `{CW : !ChannelsWriteApi}
        `{DS : !DeviceStereoApi}.

Local Open Scope cam_scope.

(** [std::shared_ptr<device::Descriptors> CameraPrivate::GetDescriptors()
    const] *)
Definition GetDescriptors : M (option Descriptors) := get descriptors_.

(** [MotionIntrinsics CameraPrivate::GetMotionIntrinsics() const] *)
Definition GetMotionIntrinsics : M MotionIntrinsics :=
  cached ← get motion_intrinsics_;
  match cached with
  | Some i => ret i
  | None =>
      log LOGE "Error: Motion intrinsics not found";;
      ret {| accel := ImuIntrinsics_default; gyro := ImuIntrinsics_default |}
  end.

(** [MotionExtrinsics CameraPrivate::GetMotionExtrinsics() const] *)
Definition GetMotionExtrinsics : M MotionExtrinsics :=
  cached ← get motion_extrinsics_;
  match cached with
  | Some e => ret e
  | None =>
      log LOGE "Error: Motion extrinsics not found";;
      ret MotionExtrinsics_default
  end.

(** The call [WriteDeviceFlash] adds to those of [ChannelsCall]. *)
Inductive WriteCall : Type :=
  | call_SetFiles (desc : option Descriptors) (imu_params : option ImuParams)
      (spec_version : option Version).

(** [bool CameraPrivate::WriteDeviceFlash(desc, imu_params,
    spec_version)].  Its trace holds the events of the methods above
    ([inl]) and the [SetFiles] call ([inr]). *)
Definition WriteDeviceFlash (desc : option Descriptors)
  (imu_params : option ImuParams) (spec_version : option Version)
  : CameraPrivate → bool * CameraPrivate * list (Event + WriteCall) :=
  λ s,
    let '(unavailable, s1, t1) := not_ channels_IsAvaliable s in
    if unavailable then
      let '(_, s2, t2) :=
        log LOGW "Data channel is unavaliable, could not write device datas."
          s1 in
      (false, s2, inl <$> (t1 ++ t2))
    else
      let r := Channels_SetFiles desc imu_params spec_version (channels_ s1) in
      (r.1, set_channels r.2 s1,
       (inl <$> t1) ++ [inr (call_SetFiles desc imu_params spec_version)]).

(** [StreamExtrinsics]: [rotation[3][3]] and [translation[3]]. *)
Record StreamExtrinsics : Type := mkStreamExtrinsics {
  rotation : vec (vec scalar 3) 3;
  translation : vec scalar 3;
}.

(** The object [std::make_shared<StreamExtrinsics>()] allocates. *)
Definition StreamExtrinsics_new : StreamExtrinsics :=
  {| rotation := vreplicate 3 (vreplicate 3 scalar_zero);
     translation := vreplicate 3 scalar_zero |}.

(** An index into a three-slot array; none outside it. *)
Definition index3 (n : nat) : option (fin 3) :=
  match n with
  | 0%nat => Some 0%fin
  | 1%nat => Some 1%fin
  | 2%nat => Some 2%fin
  | _ => None
  end.

(** The loop [for (int i = 0; i < 9; i++) dst[i/3][i%3] = src[i];] *)
Definition reshape_rotation (src : list scalar) (dst : vec (vec scalar 3) 3)
  : option (vec (vec scalar 3) 3) :=
  foldl (λ acc (i : nat),
           match acc with
           | None => None
           | Some rot =>
               match src !! i, index3 (i / 3), index3 (i mod 3) with
               | Some v, Some row, Some col =>
                   Some (vinsert row (vinsert col v (rot !!! row)) rot)
               | _, _, _ => None
               end
           end)
        (Some dst) (seq 0 9).

(** The loop [for (int j = 0; j < 3; j++) dst[j] = src[j];] *)
Definition copy_translation (src : list scalar) (dst : vec scalar 3)
  : option (vec scalar 3) :=
  foldl (λ acc (j : fin 3),
           match acc with
           | None => None
           | Some d =>
               match src !! fin_to_nat j with
               | None => None
               | Some v => Some (vinsert j v d)
               end
           end)
        (Some dst) [0%fin; 1%fin; 2%fin].

(** [StreamExtrinsics CameraPrivate::GetStreamExtrinsics(mode)].  The
    member [stream_extrinsics_], which the record [CameraPrivate] above
    does not hold, is passed in and handed back beside the result: the
    holder is allocated on first use and overwritten in place, rotation
    first.  As for the intrinsics, the result is [None] when an array is
    read outside its bounds. *)
Definition GetStreamExtrinsics (mode : StreamMode)
  (stream_extrinsics_ : option StreamExtrinsics)
  : M (option StreamExtrinsics * option StreamExtrinsics) :=
  let holder := default StreamExtrinsics_new stream_extrinsics_ in
  d ← get device_;
  GetCameraCalibration mode;;
  match reshape_rotation (Device_RotaMat mode d) (rotation holder) with
  | None => ret (None, Some holder)
  | Some rot =>
      match copy_translation (Device_TranMat mode d) (translation holder) with
      | None =>
          ret (None,
               Some {| rotation := rot; translation := translation holder |})
      | Some tr =>
          ret (Some {| rotation := rot; translation := tr |},
               Some {| rotation := rot; translation := tr |})
      end
  end.

(** Whether a sequence of operations enables inertial data, and whether
    it enables image-info. *)
Definition enables_motion_datas (ops : list Operation) : bool :=
  existsb (λ o, match o with op_EnableMotionDatas _ => true | _ => false end)
    ops.
Definition enables_image_info (ops : list Operation) : bool :=
  existsb (λ o, match o with op_EnableImageInfo _ => true | _ => false end)
    ops.

End OtherMethods.

(* ================================================================= *)
(** ** What the specification assumes of the collaborators

    The classes below state, as equations between observations, the
    behaviour the specification ascribes to the collaborators (section 3,
    "Tracking subscription handle" and "FeatureToggleState"; sections
    4.3, 4.4 and 6).  Theorems that need one of them say so. *)

(** Modelled from the spec: the transport's [isOpened] reflects the last
    [open]/[close] (the code of [Device] is outside this unit). *)
Class DeviceLaws `{DA : DeviceApi} : Prop := {
  Device_Close_closed d : Device_IsOpened (Device_Close d) = false;
  Device_Open_opened params d :
    Device_IsOpened d = false →
    Device_IsOpened (Device_Open params d).2 = (Device_Open params d).1;
}.

(** Modelled from the spec: the channel has one "hid tracking active"
    flag, set by an accepted [startTracking] and cleared by
    [stopTracking]; registering a callback or reading the flash touches
    neither that flag nor the availability the channel reports (the code
    of [Channels] is outside this unit). *)
Class ChannelsLaws `{CA : ChannelsApi} : Prop := {
  SetImuDataCallback_tracking cb c :
    Channels_IsHidTracking (Channels_SetImuDataCallback cb c)
    = Channels_IsHidTracking c;
  SetImuDataCallback_available cb c :
    Channels_IsHidAvaliable (Channels_SetImuDataCallback cb c)
    = Channels_IsHidAvaliable c;
  SetImgInfoCallback_tracking cb c :
    Channels_IsHidTracking (Channels_SetImgInfoCallback cb c)
    = Channels_IsHidTracking c;
  SetImgInfoCallback_available cb c :
    Channels_IsHidAvaliable (Channels_SetImgInfoCallback cb c)
    = Channels_IsHidAvaliable c;
  GetFiles_tracking d c :
    Channels_IsHidTracking (Channels_GetFiles d c).2 = Channels_IsHidTracking c;
  GetFiles_available d c :
    Channels_IsHidAvaliable (Channels_GetFiles d c).2
    = Channels_IsHidAvaliable c;
  StartHidTracking_tracking c :
    Channels_IsHidTracking c = false →
    Channels_IsHidTracking (Channels_StartHidTracking c).2
    = (Channels_StartHidTracking c).1;
  StartHidTracking_available c :
    Channels_IsHidAvaliable (Channels_StartHidTracking c).2
    = Channels_IsHidAvaliable c;
  StopHidTracking_tracking c :
    Channels_IsHidTracking (Channels_StopHidTracking c) = false;
  StopHidTracking_available c :
    Channels_IsHidAvaliable (Channels_StopHidTracking c)
    = Channels_IsHidAvaliable c;
}.

(** Modelled from the spec: enabling inertial buffering is monotonic
    (the code of [Motions] is outside this unit). *)
Class MotionsLaws `{MA : MotionsApi} : Prop := {
  EnableMotionDatas_enabled max_size m :
    Motions_IsMotionDatasEnabled (Motions_EnableMotionDatas max_size m) = true;
  SetMotionIntrinsics_enabled i m :
    Motions_IsMotionDatasEnabled (Motions_SetMotionIntrinsics i m)
    = Motions_IsMotionDatasEnabled m;
}.

(** Modelled from the spec: enabling image-info is monotonic and no
    other stream call changes it (the code of [Streams] is outside this
    unit). *)
Class StreamsLaws `{SA : StreamsApi} : Prop := {
  EnableImageInfo_enabled sync st :
    Streams_IsImageInfoEnabled (Streams_EnableImageInfo sync st) = true;
  EnableStreamData_image_info type st :
    Streams_IsImageInfoEnabled (Streams_EnableStreamData type st)
    = Streams_IsImageInfoEnabled st;
  OnCameraOpen_image_info st :
    Streams_IsImageInfoEnabled (Streams_OnCameraOpen st)
    = Streams_IsImageInfoEnabled st;
  OnCameraClose_image_info st :
    Streams_IsImageInfoEnabled (Streams_OnCameraClose st)
    = Streams_IsImageInfoEnabled st;
}.

(* ================================================================= *)
(** ** A simulated device

    Concrete collaborators, used to run the coordinator on explicit
    inputs. *)

Module Sim.

(** Modelled from the spec: the payload types of the headers outside
    this unit; a version prints as its two numbers separated by a dot. *)
#[export] Instance types : DeviceTypes := {|
  OpenParams := N;
  StreamMode := N;
  ImageType := N;
  scalar := Z;
  scalar_zero := 0;
  Version := N * N;
  Version_default := (0%N, 0%N);
  Version_to_string := λ v,
    NilZero.string_of_uint (N.to_uint v.1) +:+ "."
    +:+ NilZero.string_of_uint (N.to_uint v.2);
  HwType := N;
  HwType_default := 0%N;
  HwType_to_string := λ t, NilZero.string_of_uint (N.to_uint t);
  ImuIntrinsics := Z;
  MotionExtrinsics := Z;
|}.

(** Modelled from the spec: a transport that accepts or rejects every
    open request ([accepts_open]) and serves one calibration record. *)
Record device : Type := mk_device {
  opened : bool;
  accepts_open : bool;
  calibration : CameraCalibration;
}.

#[export] Instance device_api : DeviceApi := {|
  Device := device;
  Device_Open := λ _ d,
    if accepts_open d
    then (true, mk_device true (accepts_open d) (calibration d))
    else (false, d);
  Device_IsOpened := opened;
  Device_Close := λ d, mk_device false (accepts_open d) (calibration d);
  Device_GetCameraCalibration := λ _ d, (calibration d, d);
|}.

(** Modelled from the spec: the side channel of section 4.3.  [flash] is
    what a read of the persisted records yields ([None]: the read
    fails); a start request sets the tracking flag when the channel
    reports itself available for tracking and is refused otherwise. *)
Record channels : Type := mk_channels {
  available : bool;
  hid_available : bool;
  hid_tracking : bool;
  flash : option (Descriptors * imu_params_t);
  imu_data_callback : option imu_data_callback_t;
  img_info_callback : option img_info_callback_t;
}.

Definition no_imu_params : imu_params_t :=
  {| ok := false; in_accel := 0; in_gyro := 0; ex_left_to_imu := 0 |}.

#[export] Instance channels_api : ChannelsApi := {|
  Channels := channels;
  Channels_IsAvaliable := available;
  Channels_GetFiles := λ d c,
    match flash c with
    | Some (d', p) => (true, d', p, c)
    | None => (false, d, no_imu_params, c)
    end;
  Channels_SetImuDataCallback := λ cb c,
    mk_channels (available c) (hid_available c) (hid_tracking c)
      (flash c) (Some cb) (img_info_callback c);
  Channels_SetImgInfoCallback := λ cb c,
    mk_channels (available c) (hid_available c) (hid_tracking c)
      (flash c) (imu_data_callback c) (Some cb);
  Channels_IsHidTracking := hid_tracking;
  Channels_IsHidAvaliable := hid_available;
  Channels_StartHidTracking := λ c,
    if hid_available c
    then (true, mk_channels (available c) (hid_available c) true
                  (flash c) (imu_data_callback c) (img_info_callback c))
    else (false, c);
  Channels_StopHidTracking := λ c,
    mk_channels (available c) (hid_available c) false
      (flash c) (imu_data_callback c) (img_info_callback c);
|}.

(** Modelled from the spec: the inertial toggle of section 4.4. *)
Record motions : Type := mk_motions {
  motion_datas_enabled : bool;
  motion_datas_max_size : N;
  motion_intrinsics : option MotionIntrinsics;
}.

#[export] Instance motions_api : MotionsApi := {|
  Motions := motions;
  Motions_IsMotionDatasEnabled := motion_datas_enabled;
  Motions_EnableMotionDatas := λ n m, mk_motions true n (motion_intrinsics m);
  Motions_SetMotionIntrinsics := λ i m,
    mk_motions (motion_datas_enabled m) (motion_datas_max_size m) (Some i);
|}.

(** Modelled from the spec: the stream toggles of section 4.4. *)
Record streams : Type := mk_streams {
  image_info_enabled : bool;
  image_info_sync : bool;
  stream_data_enabled : list N;
  camera_active : bool;
}.

#[export] Instance streams_api : StreamsApi := {|
  Streams := streams;
  Streams_IsImageInfoEnabled := image_info_enabled;
  Streams_EnableImageInfo := λ sync st,
    mk_streams true sync (stream_data_enabled st) (camera_active st);
  Streams_EnableStreamData := λ type st,
    mk_streams (image_info_enabled st) (image_info_sync st)
      (type :: stream_data_enabled st) (camera_active st);
  Streams_OnCameraOpen := λ st,
    mk_streams (image_info_enabled st) (image_info_sync st)
      (stream_data_enabled st) true;
  Streams_OnCameraClose := λ st,
    mk_streams (image_info_enabled st) (image_info_sync st)
      (stream_data_enabled st) false;
|}.

(** A calibration record with empty arrays. *)
Definition empty_calibration : CameraCalibration :=
  {| InImgWidth := 0; InImgHeight := 0;
     CamMat1 := []; CamDist1 := []; CamMat2 := []; CamDist2 := [] |}.

(** Freshly constructed collaborators: closed, idle, all toggles off. *)
Definition new_device (accepts : bool) (c : CameraCalibration) : device :=
  mk_device false accepts c.

Definition new_channels (avail hid_avail : bool)
  (fl : option (Descriptors * imu_params_t)) : channels :=
  mk_channels avail hid_avail false fl None None.

Definition new_motions : motions := mk_motions false 0 None.
Definition new_streams : streams := mk_streams false false [] false.

(** Sample inputs. *)

Definition sample_descriptors : Descriptors :=
  {| name := "MYNT-EYE-D1000"; serial_number := "203837533548500C";
     firmware_version := (1%N, 4%N); hardware_version := (2%N, 0%N);
     spec_version := (1%N, 0%N); lens_type := 0%N; imu_type := 0%N;
     nominal_baseline := 120%N |}.

Definition sample_imu_params : imu_params_t :=
  {| ok := true; in_accel := 1; in_gyro := 2; ex_left_to_imu := 3 |}.

Definition sample_calibration : CameraCalibration :=
  {| InImgWidth := 2560; InImgHeight := 720;
     CamMat1 := [1040; 0; 641; 0; 1041; 352; 0; 0; 1];
     CamDist1 := [11; 12; 13; 14; 15; 16; 17; 18];
     CamMat2 := [1050; 0; 655; 0; 1051; 364; 0; 0; 1];
     CamDist2 := [21; 22; 23; 24; 25; 26; 27; 28] |}.

(** A device that accepts to open, with a working side channel. *)
Definition good_device : device := new_device true sample_calibration.
Definition good_channels : channels :=
  new_channels true true (Some (sample_descriptors, sample_imu_params)).

(** A device that refuses to open. *)
Definition stubborn_device : device := new_device false sample_calibration.

(** A side channel that is present but whose flash cannot be read. *)
Definition unreadable_channels : channels := new_channels true true None.

(** The object just constructed on the good device. *)
Definition fresh_camera : CameraPrivate :=
  state_after (CameraPrivate_ctor good_device good_channels new_motions
                 new_streams).

Definition opened_camera : CameraPrivate :=
  session good_device good_channels new_motions new_streams [op_Open 0%N].

Definition stubborn_camera : CameraPrivate :=
  state_after (CameraPrivate_ctor stubborn_device good_channels new_motions
                 new_streams).

(** A session in which inertial data is enabled before the device is
    opened. *)
Definition tracking_session : CameraPrivate :=
  session good_device good_channels new_motions new_streams
    [op_EnableMotionDatas 8; op_Open 0%N].

(** The same session closed again: inertial data is still enabled and
    the channel still available, but [Close] has stopped tracking. *)
Definition closed_session : CameraPrivate :=
  session good_device good_channels new_motions new_streams
    [op_EnableMotionDatas 8; op_Open 0%N; op_Close].

(** An object on which image-info is enabled and tracking was stopped
    by [Close]: [EnableStreamData] leaves tracking off, a re-evaluation
    would turn it on. *)
Definition idle_session : CameraPrivate :=
  session good_device good_channels new_motions new_streams
    [op_EnableImageInfo true; op_Open 0%N; op_Close].

(** Modelled from the spec: default inertial payloads are zero. *)
#[export] Instance motion_defaults : MotionDefaults := {|
  ImuIntrinsics_default := 0;
  MotionExtrinsics_default := 0;
|}.

(** Modelled from the spec: a write succeeds on an available channel and
    replaces the flash content when both records are given. *)
#[export] Instance channels_write_api : ChannelsWriteApi := {|
  ImuParams := imu_params_t;
  Channels_SetFiles := λ desc imu_params _ c,
    if available c then
      (true,
       match desc, imu_params with
       | Some d, Some p =>
           mk_channels (available c) (hid_available c) (hid_tracking c)
             (Some (d, p)) (imu_data_callback c) (img_info_callback c)
       | _, _ => c
       end)
    else (false, c);
|}.

(** Modelled from the spec: a transport whose stereo rotation and
    translation arrays are fixed. *)
#[export] Instance device_stereo_api : DeviceStereoApi := {|
  Device_RotaMat := λ _ _, [31; 32; 33; 34; 35; 36; 37; 38; 39];
  Device_TranMat := λ _ _, [41; 42; 43];
|}.

End Sim.

Local Open Scope cam_scope.

(* ================================================================= *)
(** ** Running the methods *)

Ltac unfold_calls :=
  unfold device_IsOpened, device_Open, device_Close,
    device_GetCameraCalibration, channels_IsAvaliable, channels_GetFiles,
    channels_SetImuDataCallback, channels_SetImgInfoCallback,
    channels_IsHidTracking, channels_IsHidAvaliable,
    channels_StartHidTracking, channels_StopHidTracking,
    motions_IsMotionDatasEnabled, motions_EnableMotionDatas,
    motions_SetMotionIntrinsics, streams_IsImageInfoEnabled,
    streams_EnableImageInfo, streams_EnableStreamData, streams_OnCameraOpen,
    streams_OnCameraClose, on_device, on_channels, on_motions, on_streams,
    query, command, log, get, modify, and_then, not_, bind, ret in *.

Ltac bool_atom b :=
  lazymatch b with
  | negb ?x => bool_atom x
  | andb ?x _ => bool_atom x
  | orb ?x _ => bool_atom x
  | (if ?x then _ else _) => bool_atom x
  | _ => constr:(b)
  end.

Ltac case_run :=
  repeat (cbn in *;
    match goal with
    | |- context [if ?b then _ else _] =>
        lazymatch b with
        | context [if _ then _ else _] => fail
        | _ => let a := bool_atom b in destruct a eqn:?
        end
    end).

Ltac simpl_members :=
  cbn [device_ channels_ motions_ streams_ descriptors_ stream_intrinsics_
       motion_intrinsics_ motion_extrinsics_
       set_device set_channels set_motions set_streams set_descriptors
       set_stream_intrinsics set_motion_intrinsics set_motion_extrinsics
       fst snd] in *.

Section Runs.
Context `{DT : DeviceTypes}.
Context `{DA : !DeviceApi} `{CA : !ChannelsApi}
        `{MA : !MotionsApi} `{SA : !StreamsApi}.

Lemma bind_run {A B} (m : M A) (f : A → M B) s :
  bind m f s =
  (result (f (result (m s)) (state_after (m s))),
   state_after (f (result (m s)) (state_after (m s))),
   trace (m s) ++ trace (f (result (m s)) (state_after (m s)))).
Proof.
  unfold bind, result, state_after, trace.
  destruct (m s) as [[a s1] t1]; cbn.
  by destruct (f a s1) as [[b s2] t2].
Qed.

Lemma state_after_tuple {A} (a : A) s t : state_after (a, s, t) = s.
Proof. reflexivity. Qed.

Lemma StartDataTracking_run s :
  StartDataTracking s =
  ((activation_of s).1.1,
   set_channels (activation_of s).1.2 s,
   activation_trace (Motions_IsMotionDatasEnabled (motions_ s))
     (Streams_IsImageInfoEnabled (streams_ s)) (channels_ s)).
Proof.
  destruct s.
  unfold StartDataTracking, activation_of, tracking_activation,
    activation_trace, register_callbacks, registrations, set_channels.
  unfold_calls. unfold result, state_after, trace.
  case_run; try congruence; reflexivity.
Qed.

Lemma channels_calls_activation_trace me ie c :
  channels_calls (activation_trace me ie c) = (tracking_activation me ie c).2.
Proof.
  unfold activation_trace, tracking_activation, registrations, channels_calls.
  destruct me, ie; cbn; case_run; try congruence; reflexivity.
Qed.

Lemma device_calls_activation_trace me ie c :
  device_calls (activation_trace me ie c) = [].
Proof.
  unfold activation_trace, device_calls.
  destruct me, ie; cbn; case_run; try congruence; reflexivity.
Qed.

#[local] Arguments StartDataTracking : simpl never.
#[local] Arguments StopDataTracking : simpl never.

Lemma StopDataTracking_run s :
  StopDataTracking s =
  (tt,
   if Channels_IsHidTracking (channels_ s)
   then set_channels (Channels_StopHidTracking (channels_ s)) s else s,
   OnChannels call_IsHidTracking
   :: if Channels_IsHidTracking (channels_ s)
      then [OnChannels call_StopHidTracking] else []).
Proof.
  destruct s. unfold StopDataTracking. unfold_calls.
  unfold result, state_after, trace.
  case_run; try congruence; reflexivity.
Qed.

Lemma Open_run params s :
  Open params s =
  if Device_IsOpened (device_ s)
  then (SUCCESS, s, [OnDevice call_Device_IsOpened])
  else
    let o := Device_Open params (device_ s) in
    let s1 := set_device o.2 s in
    if o.1 then
      (SUCCESS,
       set_streams (Streams_OnCameraOpen (streams_ s))
         (set_channels (activation_of s1).1.2 s1),
       [OnDevice call_Device_IsOpened; OnDevice (call_Device_Open params)]
       ++ activation_trace (Motions_IsMotionDatasEnabled (motions_ s))
            (Streams_IsImageInfoEnabled (streams_ s)) (channels_ s)
       ++ [OnStreams call_OnCameraOpen])
    else
      (ERROR_FAILURE, s1,
       [OnDevice call_Device_IsOpened; OnDevice (call_Device_Open params)]).
Proof.
  unfold Open, IsOpened. unfold_calls.
  destruct s as [d c m st ? ? ? ?]; cbn.
  destruct (Device_IsOpened d); [reflexivity|]; cbn.
  destruct (Device_Open params d) as [[] d']; cbn; [|reflexivity].
  rewrite StartDataTracking_run. reflexivity.
Qed.

Lemma Close_run s :
  Close s =
  if Device_IsOpened (device_ s)
  then
    (tt,
     set_device (Device_Close (device_ s))
       (set_streams (Streams_OnCameraClose (streams_ s))
          (state_after (StopDataTracking s))),
     [OnDevice call_Device_IsOpened]
     ++ trace (StopDataTracking s)
     ++ [OnStreams call_OnCameraClose; OnDevice call_Device_Close])
  else (tt, s, [OnDevice call_Device_IsOpened]).
Proof.
  unfold Close, IsOpened. unfold_calls.
  destruct s as [d c m st ? ? ? ?]; cbn.
  destruct (Device_IsOpened d); [|reflexivity]; cbn.
  rewrite !StopDataTracking_run; cbn.
  destruct (Channels_IsHidTracking c); reflexivity.
Qed.

Lemma EnableImageInfo_run sync s :
  EnableImageInfo sync s =
  let s1 := set_streams (Streams_EnableImageInfo sync (streams_ s)) s in
  (tt, state_after (StartDataTracking s1),
   OnStreams (call_EnableImageInfo sync) :: trace (StartDataTracking s1)).
Proof.
  unfold EnableImageInfo. unfold_calls; cbn.
  destruct (StartDataTracking _) as [[b s2] t2]; cbn.
  by rewrite app_nil_r.
Qed.

Lemma EnableMotionDatas_run max_size s :
  EnableMotionDatas max_size s =
  let s1 := set_motions (Motions_EnableMotionDatas max_size (motions_ s)) s in
  (tt, state_after (StartDataTracking s1),
   OnMotions (call_EnableMotionDatas max_size)
   :: trace (StartDataTracking s1)).
Proof.
  unfold EnableMotionDatas. unfold_calls; cbn.
  destruct (StartDataTracking _) as [[b s2] t2]; cbn.
  by rewrite app_nil_r.
Qed.

Lemma EnableStreamData_run type s :
  EnableStreamData type s =
  (tt, set_streams (Streams_EnableStreamData type (streams_ s)) s,
   [OnStreams (call_EnableStreamData type)]).
Proof. reflexivity. Qed.

(** What construction leaves in the members. *)
Lemma ctor_members d c m st :
  let s := state_after (CameraPrivate_ctor d c m st) in
  let read := Channels_GetFiles Descriptors_new c in
  device_ s = d
  ∧ streams_ s = st
  ∧ channels_ s = (if Channels_IsAvaliable c then read.2 else c)
  ∧ descriptors_ s = (if Channels_IsAvaliable c then Some read.1.1.2 else None)
  ∧ Motions_IsMotionDatasEnabled (motions_ s)
    = (if Channels_IsAvaliable c && read.1.1.1 && ok read.1.2
       then Motions_IsMotionDatasEnabled
              (Motions_SetMotionIntrinsics
                 {| accel := in_accel read.1.2; gyro := in_gyro read.1.2 |} m)
       else Motions_IsMotionDatasEnabled m).
Proof.
  unfold CameraPrivate_ctor, CameraPrivate_new, Init, ReadDeviceFlash,
    SetMotionIntrinsics, SetMotionExtrinsics.
  unfold_calls. unfold state_after; cbn.
  destruct (Channels_IsAvaliable c) eqn:Hav; cbn; [|by rewrite ?Hav].
  rewrite Hav; cbn.
  destruct (Channels_GetFiles Descriptors_new c) as [[[rd filled] ip] c'].
  cbn. destruct rd; cbn; [|done].
  destruct (ok ip); done.
Qed.

Lemma ctor_run d c m st :
  let read := Channels_GetFiles Descriptors_new c in
  let populated :=
    Channels_IsAvaliable c && read.1.1.1 && ok read.1.2 in
  let r := CameraPrivate_ctor d c m st in
  channels_calls (trace r)
  = (if Channels_IsAvaliable c
     then [call_IsAvaliable; call_IsAvaliable; call_GetFiles]
     else [call_IsAvaliable])
  ∧ device_calls (trace r) = []
  ∧ motion_intrinsics_ (state_after r)
    = (if populated
       then Some {| accel := in_accel read.1.2; gyro := in_gyro read.1.2 |}
       else None)
  ∧ motion_extrinsics_ (state_after r)
    = (if populated then Some (ex_left_to_imu read.1.2) else None)
  ∧ (Channels_IsAvaliable c = false →
     r = ((), CameraPrivate_new d c m st, [OnChannels call_IsAvaliable])).
Proof.
  unfold CameraPrivate_ctor, CameraPrivate_new, Init, ReadDeviceFlash,
    SetMotionIntrinsics, SetMotionExtrinsics.
  unfold_calls. unfold state_after, trace; cbn.
  destruct (Channels_IsAvaliable c) eqn:Hav; cbn; [|by rewrite ?Hav].
  rewrite Hav; cbn.
  destruct (Channels_GetFiles Descriptors_new c) as [[[rd filled] ip] c'].
  cbn. destruct rd; cbn; [|done].
  destruct (ok ip); done.
Qed.

Lemma ctor_collaborators d c m st :
  let read := Channels_GetFiles Descriptors_new c in
  let populated :=
    Channels_IsAvaliable c && read.1.1.1 && ok read.1.2 in
  let r := CameraPrivate_ctor d c m st in
  streams_calls (trace r) = []
  ∧ motions_calls (trace r)
    = (if populated then [call_SetMotionIntrinsics] else [])
  ∧ motions_ (state_after r)
    = (if populated
       then Motions_SetMotionIntrinsics
              {| accel := in_accel read.1.2; gyro := in_gyro read.1.2 |} m
       else m)
  ∧ (Channels_IsAvaliable c = false →
     state_after r = CameraPrivate_new d c m st).
Proof.
  unfold CameraPrivate_ctor, CameraPrivate_new, Init, ReadDeviceFlash,
    SetMotionIntrinsics, SetMotionExtrinsics.
  unfold_calls. unfold state_after, trace; cbn.
  destruct (Channels_IsAvaliable c) eqn:Hav; cbn; [|by rewrite ?Hav].
  rewrite Hav; cbn.
  destruct (Channels_GetFiles Descriptors_new c) as [[[rd filled] ip] c'].
  cbn. destruct rd; cbn; [|done].
  destruct (ok ip); done.
Qed.

End Runs.

(* ================================================================= *)
(** ** Tracking activation *)

Section Activation.
Context `{DT : DeviceTypes}.
Context `{DA : !DeviceApi} `{CA : !ChannelsApi}
        `{MA : !MotionsApi} `{SA : !StreamsApi}.

#[local] Arguments StartDataTracking : simpl never.
#[local] Arguments StopDataTracking : simpl never.

(** C1. [StartDataTracking] follows the six steps of the activation
    algorithm: on every object, the value it returns, the object it
    leaves (only the side channel may differ) and the calls it makes on
    the side channel are those of [tracking_activation], the algorithm as
    the specification words it: with both toggles off, [false] and no
    side-channel call; otherwise the callbacks of the enabled toggles are
    registered, then [true] if the channel is tracking, [false] if it is
    unavailable, and the outcome of the start request in the remaining
    case. *)
Theorem StartDataTracking_six_steps (s : CameraPrivate) :
  let me := Motions_IsMotionDatasEnabled (motions_ s) in
  let ie := Streams_IsImageInfoEnabled (streams_ s) in
  let steps := tracking_activation me ie (channels_ s) in
  result (StartDataTracking s) = steps.1.1
  ∧ state_after (StartDataTracking s) = set_channels steps.1.2 s
  ∧ channels_calls (trace (StartDataTracking s)) = steps.2.
Proof.
  cbn zeta. rewrite StartDataTracking_run.
  unfold result, state_after, trace, activation_of; cbn [fst snd].
  by rewrite channels_calls_activation_trace.
Qed.

Lemma StartDataTracking_set_device d' s :
  StartDataTracking (set_device d' s)
  = ((StartDataTracking s).1.1,
     set_device d' (StartDataTracking s).1.2,
     (StartDataTracking s).2).
Proof. rewrite !StartDataTracking_run. by destruct s. Qed.

Lemma register_callbacks_tracking `{!ChannelsLaws} me ie c :
  Channels_IsHidTracking (register_callbacks me ie c)
  = Channels_IsHidTracking c.
Proof.
  unfold register_callbacks.
  destruct me, ie;
    by rewrite ?SetImgInfoCallback_tracking, ?SetImuDataCallback_tracking.
Qed.

Lemma register_callbacks_available `{!ChannelsLaws} me ie c :
  Channels_IsHidAvaliable (register_callbacks me ie c)
  = Channels_IsHidAvaliable c.
Proof.
  unfold register_callbacks.
  destruct me, ie;
    by rewrite ?SetImgInfoCallback_available, ?SetImuDataCallback_available.
Qed.

(** The channel after an activation reports the availability it reported
    before. *)
Lemma activation_available `{!ChannelsLaws} me ie c :
  Channels_IsHidAvaliable (tracking_activation me ie c).1.2
  = Channels_IsHidAvaliable c.
Proof.
  unfold tracking_activation.
  destruct (negb me && negb ie); [done|].
  destruct (Channels_IsHidTracking _); cbn;
    [apply register_callbacks_available|].
  destruct (Channels_IsHidAvaliable (register_callbacks me ie c)) eqn:E; cbn.
  - rewrite StartHidTracking_available, E.
    by rewrite <- (register_callbacks_available me ie c).
  - apply register_callbacks_available.
Qed.

(** Tracking after an activation: unchanged with both toggles off;
    otherwise on if it was on, or if the channel is available and grants
    the start request. *)
Lemma activation_tracking `{!ChannelsLaws} me ie c :
  Channels_IsHidTracking (tracking_activation me ie c).1.2
  = if me || ie
    then Channels_IsHidTracking c
         || Channels_IsHidAvaliable c
            && (Channels_StartHidTracking (register_callbacks me ie c)).1
    else Channels_IsHidTracking c.
Proof.
  unfold tracking_activation.
  destruct (negb me && negb ie) eqn:Hoff.
  { by destruct me, ie. }
  replace (me || ie) with true by (by destruct me, ie).
  rewrite <- (register_callbacks_tracking me ie c).
  rewrite <- (register_callbacks_available me ie c).
  generalize (register_callbacks me ie c) as c'. intros c'. cbn zeta.
  destruct (Channels_IsHidTracking c') eqn:E1; [done|].
  destruct (Channels_IsHidAvaliable c') eqn:E2; cbn [negb fst snd orb andb].
  - by apply StartHidTracking_tracking.
  - done.
Qed.

(** The decision taken on a channel that is idle and available, with at
    least one toggle on: register, ask, and start. *)
Lemma activation_idle_available `{!ChannelsLaws} me ie c :
  me || ie = true →
  Channels_IsHidTracking c = false →
  Channels_IsHidAvaliable c = true →
  tracking_activation me ie c
  = ((Channels_StartHidTracking (register_callbacks me ie c)).1,
     (Channels_StartHidTracking (register_callbacks me ie c)).2,
     registrations me ie
     ++ [call_IsHidTracking; call_IsHidAvaliable; call_StartHidTracking]).
Proof.
  intros Hon Ht Ha. unfold tracking_activation.
  replace (negb me && negb ie) with false by (by destruct me, ie).
  cbn zeta.
  by rewrite register_callbacks_tracking, register_callbacks_available, Ht, Ha.
Qed.

(** C10. [StartDataTracking] never consults the open state of the
    device: run on two objects that differ only in the device member, it
    returns the same value, emits the same trace (which holds no call on
    the device) and leaves the same members.  In particular, on an object
    whose channel is available and idle, whether or not its device was
    ever opened, [EnableMotionDatas] and [EnableImageInfo] register their
    callback and issue the start request at once, and tracking is active
    afterwards exactly when that request is granted. *)
Theorem StartDataTracking_ignores_open_state
  `{!ChannelsLaws} `{!MotionsLaws} `{!StreamsLaws}
  (s : CameraPrivate) (max_size : N) (sync : bool)
  (Havailable : tracking_available s = true)
  (Hidle : tracking_active s = false) :
  (∀ s0 d',
     result (StartDataTracking (set_device d' s0))
     = result (StartDataTracking s0)
     ∧ trace (StartDataTracking (set_device d' s0))
       = trace (StartDataTracking s0)
     ∧ state_after (StartDataTracking (set_device d' s0))
       = set_device d' (state_after (StartDataTracking s0))
     ∧ device_calls (trace (StartDataTracking s0)) = [])
  ∧ (let ie := Streams_IsImageInfoEnabled (streams_ s) in
     let r := EnableMotionDatas max_size s in
     channels_calls (trace r)
     = registrations true ie
       ++ [call_IsHidTracking; call_IsHidAvaliable; call_StartHidTracking]
     ∧ tracking_active (state_after r)
       = (Channels_StartHidTracking
            (register_callbacks true ie (channels_ s))).1)
  ∧ (let me := Motions_IsMotionDatasEnabled (motions_ s) in
     let r := EnableImageInfo sync s in
     channels_calls (trace r)
     = registrations me true
       ++ [call_IsHidTracking; call_IsHidAvaliable; call_StartHidTracking]
     ∧ tracking_active (state_after r)
       = (Channels_StartHidTracking
            (register_callbacks me true (channels_ s))).1).
Proof.
  unfold tracking_available, tracking_active in *.
  split; [|split].
  - intros s0 d'. rewrite StartDataTracking_set_device.
    unfold result, state_after, trace; cbn [fst snd].
    repeat split; try done.
    rewrite StartDataTracking_run; cbn [snd].
    apply device_calls_activation_trace.
  - cbn zeta. rewrite EnableMotionDatas_run; cbn zeta.
    rewrite StartDataTracking_run.
    unfold result, state_after, trace, activation_of. simpl_members.
    rewrite EnableMotionDatas_enabled.
    change (channels_calls (?e :: ?t)) with (channels_calls t).
    rewrite channels_calls_activation_trace.
    rewrite activation_idle_available by done. cbn [fst snd].
    split; [done|]. apply StartHidTracking_tracking.
    by rewrite register_callbacks_tracking.
  - cbn zeta. rewrite EnableImageInfo_run; cbn zeta.
    rewrite StartDataTracking_run.
    unfold result, state_after, trace, activation_of. simpl_members.
    rewrite EnableImageInfo_enabled.
    change (channels_calls (?e :: ?t)) with (channels_calls t).
    rewrite channels_calls_activation_trace.
    rewrite activation_idle_available by (done || apply orb_true_r).
    cbn [fst snd].
    split; [done|]. apply StartHidTracking_tracking.
    by rewrite register_callbacks_tracking.
Qed.

End Activation.

(* ================================================================= *)
(** ** Open and Close *)

Section Lifecycle.
Context `{DT : DeviceTypes}.
Context `{DA : !DeviceApi} `{CA : !ChannelsApi}
        `{MA : !MotionsApi} `{SA : !StreamsApi}.

#[local] Arguments StartDataTracking : simpl never.
#[local] Arguments StopDataTracking : simpl never.
#[local] Arguments Open : simpl never.
#[local] Arguments Close : simpl never.

Lemma for_each_noop {X A} (f : X → M A) (a : A) (e : Event) s xs :
  (∀ x, f x s = (a, s, [e])) →
  for_each f xs s = (replicate (length xs) a, s, replicate (length xs) e).
Proof.
  intros Hf. induction xs as [|x xs IH]; [reflexivity|].
  cbn [for_each]. unfold bind. rewrite Hf, IH. unfold ret; cbn.
  by rewrite app_nil_r.
Qed.

Lemma device_calls_replicate_IsOpened n :
  device_calls (replicate n (OnDevice call_Device_IsOpened))
  = replicate n call_Device_IsOpened.
Proof. induction n as [|n IH]; [done|]. cbn. by f_equal. Qed.

(** C5. On an object whose device is opened, any sequence of [Open]
    calls, whatever their parameters, returns [SUCCESS] every time,
    leaves the object as it was, and makes no call other than the
    [IsOpened] query of each: the transport's open operation is never
    invoked. *)
Theorem Open_when_opened (s : CameraPrivate) (paramss : list OpenParams)
  (Hopened : Device_IsOpened (device_ s) = true) :
  for_each Open paramss s
  = (replicate (length paramss) SUCCESS, s,
     replicate (length paramss) (OnDevice call_Device_IsOpened))
  ∧ ∀ params,
      call_Device_Open params ∉ device_calls (trace (for_each Open paramss s)).
Proof.
  assert (for_each Open paramss s
          = (replicate (length paramss) SUCCESS, s,
             replicate (length paramss) (OnDevice call_Device_IsOpened)))
    as E.
  { apply for_each_noop. intros params. by rewrite Open_run, Hopened. }
  split; [exact E|].
  intros params. rewrite E. unfold trace; cbn [snd].
  rewrite device_calls_replicate_IsOpened.
  intros [Hin _]%elem_of_replicate. discriminate.
Qed.

(** The branch of [Open] that returns [ERROR_CAMERA_OPEN_FAILED] is
    never taken. *)
Lemma Open_never_reports_open_failed params s :
  result (Open params s) ≠ ERROR_CAMERA_OPEN_FAILED.
Proof.
  rewrite Open_run. destruct (Device_IsOpened _); [done|].
  cbn zeta. by destruct (Device_Open params (device_ s)).1.
Qed.

(** C6 (what the code does). When the device is not opened and the
    transport refuses to open, [Open] asks the transport once and returns
    the generic [ERROR_FAILURE], not [ERROR_CAMERA_OPEN_FAILED]. *)
Theorem Open_transport_failure (s : CameraPrivate) (params : OpenParams)
  (Hclosed : Device_IsOpened (device_ s) = false)
  (Hrefused : (Device_Open params (device_ s)).1 = false) :
  result (Open params s) = ERROR_FAILURE
  ∧ result (Open params s) ≠ ERROR_CAMERA_OPEN_FAILED
  ∧ device_calls (trace (Open params s))
    = [call_Device_IsOpened; call_Device_Open params]
  ∧ state_after (Open params s)
    = set_device (Device_Open params (device_ s)).2 s.
Proof.
  split; [|split; [apply Open_never_reports_open_failed|]];
    rewrite Open_run, Hclosed; cbn zeta; rewrite Hrefused; done.
Qed.

(** C9. [Close] on an object whose device is not opened only asks
    [IsOpened], any number of times: the object is unchanged, and neither
    the transport's close nor the channel's stop is called.  On an opened
    device it asks the channel whether it is tracking, stops it if so,
    tells the stream collaborator, then closes the transport, in that
    order, and leaves the channel not tracking and the device closed;
    every further [Close], the destructor's included, is then one more
    [IsOpened] query and nothing else. *)
Theorem Close_behaviour `{!DeviceLaws} `{!ChannelsLaws}
  (s : CameraPrivate) (n : nat) :
  (if Device_IsOpened (device_ s)
   then
     trace (Close s)
     = [OnDevice call_Device_IsOpened; OnChannels call_IsHidTracking]
       ++ (if tracking_active s then [OnChannels call_StopHidTracking] else [])
       ++ [OnStreams call_OnCameraClose; OnDevice call_Device_Close]
     ∧ state_after (Close s)
       = set_device (Device_Close (device_ s))
           (set_streams (Streams_OnCameraClose (streams_ s))
              (if tracking_active s
               then set_channels (Channels_StopHidTracking (channels_ s)) s
               else s))
     ∧ tracking_active (state_after (Close s)) = false
   else
     for_each (λ _ : unit, Close) (replicate n ()) s
     = (replicate n (), s, replicate n (OnDevice call_Device_IsOpened)))
  ∧ Device_IsOpened (device_ (state_after (Close s))) = false
  ∧ for_each (λ _ : unit, Close) (replicate n ()) (state_after (Close s))
    = (replicate n (), state_after (Close s),
       replicate n (OnDevice call_Device_IsOpened))
  ∧ CameraPrivate_dtor (state_after (Close s))
    = ((), state_after (Close s), [OnDevice call_Device_IsOpened]).
Proof.
  assert (∀ s', Device_IsOpened (device_ s') = false →
            for_each (λ _ : unit, Close) (replicate n ()) s'
            = (replicate n (), s', replicate n (OnDevice call_Device_IsOpened)))
    as Hnoop.
  { intros s' Hs'.
    rewrite (for_each_noop (λ _ : unit, Close) () 
               (OnDevice call_Device_IsOpened) s' (replicate n ())).
    - by rewrite length_replicate.
    - intros _. by rewrite Close_run, Hs'. }
  assert (Device_IsOpened (device_ (state_after (Close s))) = false) as Hc.
  { rewrite Close_run. destruct (Device_IsOpened (device_ s)) eqn:E.
    - unfold state_after; simpl_members. apply Device_Close_closed.
    - by unfold state_after; simpl_members. }
  split; [|split; [exact Hc|split; [by apply Hnoop|]]].
  - destruct (Device_IsOpened (device_ s)) eqn:E; [|by apply Hnoop].
    rewrite Close_run, E, StopDataTracking_run.
    unfold trace, state_after, tracking_active; simpl_members.
    split; [done|]. split; [done|].
    destruct (Channels_IsHidTracking (channels_ s)) eqn:Et; simpl_members.
    + apply StopHidTracking_tracking.
    + done.
  - unfold CameraPrivate_dtor. by rewrite (Close_run (state_after _)), Hc.
Qed.

(** C3 (as the code has it). [EnableImageInfo] and [EnableMotionDatas]
    set their flag in the collaborator and then run [StartDataTracking]
    on the object so changed; [EnableStreamData] only forwards to the
    stream collaborator: one call, none on the side channel, which it
    leaves as it was. *)
Theorem enabling_calls_and_tracking (s : CameraPrivate) (sync : bool)
  (max_size : N) (type : ImageType) :
  EnableImageInfo sync s
  = (let s1 := set_streams (Streams_EnableImageInfo sync (streams_ s)) s in
     ((), state_after (StartDataTracking s1),
      OnStreams (call_EnableImageInfo sync) :: trace (StartDataTracking s1)))
  ∧ EnableMotionDatas max_size s
    = (let s1 :=
         set_motions (Motions_EnableMotionDatas max_size (motions_ s)) s in
       ((), state_after (StartDataTracking s1),
        OnMotions (call_EnableMotionDatas max_size)
        :: trace (StartDataTracking s1)))
  ∧ EnableStreamData type s
    = ((), set_streams (Streams_EnableStreamData type (streams_ s)) s,
       [OnStreams (call_EnableStreamData type)])
  ∧ channels_calls (trace (EnableStreamData type s)) = []
  ∧ channels_ (state_after (EnableStreamData type s)) = channels_ s.
Proof.
  split; [apply EnableImageInfo_run|].
  split; [apply EnableMotionDatas_run|].
  by rewrite EnableStreamData_run.
Qed.

End Lifecycle.

(* ================================================================= *)
(** ** The descriptor cache *)

Section DescriptorCache.
Context `{DT : DeviceTypes}.
Context `{DA : !DeviceApi} `{CA : !ChannelsApi}
        `{MA : !MotionsApi} `{SA : !StreamsApi}.

Lemma std_to_string_nonempty (n : N) : std_to_string n ≠ "".
Proof.
  unfold std_to_string, NilZero.string_of_uint.
  destruct n as [|p]; [done|]. cbn [N.to_uint].
  pose proof (DecimalPos.Unsigned.to_uint_nonnil p) as Hnil.
  destruct (Pos.to_uint p); [done|..]; discriminate.
Qed.

Lemma GetDescriptor_run desc s :
  GetDescriptor desc s
  = (match descriptors_ s with
     | Some d => default "" (descriptor_field desc d)
     | None => ""
     end,
     s,
     match descriptors_ s with
     | Some d => if recognized desc then []
                 else [Log LOGE "Unknown device info"]
     | None => [Log LOGE "Device information not found"]
     end).
Proof.
  unfold GetDescriptor. unfold_calls.
  destruct (descriptors_ s); [|reflexivity].
  destruct desc; reflexivity.
Qed.

(** C8. [GetDescriptor] is a lookup with a default: for every tag and
    every object it returns a string and leaves the object unchanged;
    with a populated cache a recognized tag yields that field's text and
    any other tag the empty string; with a null cache every tag yields
    the empty string. *)
Theorem GetDescriptor_lookup_with_default (desc : Descriptor)
  (s : CameraPrivate) (d : Descriptors) (raw : N) :
  state_after (GetDescriptor desc s) = s
  ∧ result (GetDescriptor desc (set_descriptors (Some d) s))
    = default "" (descriptor_field desc d)
  ∧ (is_Some (descriptor_field desc d) ↔ recognized desc = true)
  ∧ result (GetDescriptor (Descriptor_other raw) s) = ""
  ∧ result (GetDescriptor desc (set_descriptors None s)) = "".
Proof.
  rewrite !GetDescriptor_run. unfold state_after, result; simpl_members.
  repeat split; try done.
  - by destruct desc; cbn; intros Hx; try done; destruct Hx.
  - by destruct desc; cbn; intros Hx; try done; eexists.
  - by destruct (descriptors_ s).
Qed.

(** What construction leaves in the descriptor cache: nothing when the
    side channel is unavailable, and otherwise the record allocated
    before the read, holding what the read left in it. *)
Lemma descriptors_after_construction
  (d : Device) (c : Channels) (m : Motions) (st : Streams) (desc : Descriptor) :
  let s := state_after (CameraPrivate_ctor d c m st) in
  descriptors_ s
  = (if Channels_IsAvaliable c
     then Some (Channels_GetFiles Descriptors_new c).1.1.2
     else None)
  ∧ result (GetDescriptor desc s)
    = (if Channels_IsAvaliable c
       then default ""
              (descriptor_field desc
                 (Channels_GetFiles Descriptors_new c).1.1.2)
       else "").
Proof.
  cbn zeta. destruct (ctor_members d c m st) as (_ & _ & _ & Hd & _).
  split; [exact Hd|].
  rewrite GetDescriptor_run. unfold result; cbn [fst]. rewrite Hd.
  by destruct (Channels_IsAvaliable c).
Qed.

(** C7 (what the code does). On an available side channel whose combined
    read reports failure, construction leaves the descriptor cache
    non-null: [ReadDeviceFlash] allocates the record before the read and
    returns on the failure without dropping it, while the two inertial
    caches stay null.  [GetDescriptor] then never takes its
    never-populated path: for every tag it returns the text of the field
    of the record the failed read left behind, without the
    [Device information not found] error, and for [NOMINAL_BASELINE] the
    result is not the empty string. *)
Theorem descriptors_kept_after_failed_read
  (d : Device) (c : Channels) (m : Motions) (st : Streams)
  (Havailable : Channels_IsAvaliable c = true)
  (Hfailed : (Channels_GetFiles Descriptors_new c).1.1.1 = false) :
  let s := state_after (CameraPrivate_ctor d c m st) in
  let kept := (Channels_GetFiles Descriptors_new c).1.1.2 in
  descriptors_ s = Some kept
  ∧ motion_intrinsics_ s = None
  ∧ motion_extrinsics_ s = None
  ∧ (∀ desc,
       result (GetDescriptor desc s) = default "" (descriptor_field desc kept)
       ∧ trace (GetDescriptor desc s)
         = (if recognized desc then []
            else [Log LOGE "Unknown device info"]))
  ∧ result (GetDescriptor NOMINAL_BASELINE s) ≠ "".
Proof.
  cbn zeta. destruct (ctor_members d c m st) as (_ & _ & _ & Hd & _).
  destruct (ctor_run d c m st) as (_ & _ & Hmi & Hme & _).
  cbn zeta in Hd, Hmi, Hme. rewrite Havailable in Hd.
  rewrite Havailable, Hfailed in Hmi, Hme.
  split; [exact Hd|]. split; [exact Hmi|]. split; [exact Hme|].
  split.
  - intros desc. rewrite GetDescriptor_run. unfold result, trace; cbn [fst snd].
    by rewrite Hd.
  - rewrite GetDescriptor_run. unfold result; cbn [fst]. rewrite Hd.
    cbn [descriptor_field default from_option id]. apply std_to_string_nonempty.
Qed.

End DescriptorCache.

(* ================================================================= *)
(** ** Stream intrinsics *)

Section Intrinsics.
Context `{DT : DeviceTypes}.
Context `{DA : !DeviceApi} `{CA : !ChannelsApi}
        `{MA : !MotionsApi} `{SA : !StreamsApi}.

Lemma copy_coeffs_take (src : list scalar) (dst : vec scalar 5) :
  (5 ≤ length src)%nat →
  ∃ c, copy_coeffs src dst = Some c ∧ vec_to_list c = take 5 src.
Proof.
  intros Hlen.
  destruct src as [|x0 [|x1 [|x2 [|x3 [|x4 rest]]]]]; cbn in Hlen; try lia.
  inv_vec dst; intros y0 y1 y2 y3 y4.
  eexists; split; reflexivity.
Qed.

Lemma fill_lens_derived w h (mat dist : list scalar) lens :
  length mat = 9%nat →
  (5 ≤ length dist)%nat →
  ∃ l, fill_lens w h mat dist lens = Some l
       ∧ lens_derived_from w h mat dist l.
Proof.
  intros Hmat Hdist.
  destruct (copy_coeffs_take dist (coeffs lens) Hdist) as (c & Hc & Hl).
  destruct mat as [|m0 [|m1 [|m2 [|m3 [|m4 [|m5 [|m6 [|m7 [|m8 [|]]]]]]]]]];
    try discriminate.
  unfold fill_lens. rewrite Hc. cbn.
  eexists; split; [reflexivity|].
  by repeat split.
Qed.

(** C4. For a raw calibration record whose two camera matrices have
    nine entries and whose two distortion vectors have at least five,
    [GetStreamIntrinsics] returns a holder, also left in the cache, in
    which each lens has width [InImgWidth/2] (C++ integer division),
    height [InImgHeight], [fx], [fy], [cx], [cy] equal to entries 0, 4, 2,
    5 of that lens's own matrix, and as coefficients the first five
    entries of that lens's own distortion vector. *)
Theorem GetStreamIntrinsics_fields (mode : StreamMode) (s : CameraPrivate)
  (Hmat1 : length (CamMat1 (Device_GetCameraCalibration mode (device_ s)).1)
           = 9%nat)
  (Hmat2 : length (CamMat2 (Device_GetCameraCalibration mode (device_ s)).1)
           = 9%nat)
  (Hdist1 :
     (5 ≤ length (CamDist1 (Device_GetCameraCalibration mode (device_ s)).1))%nat)
  (Hdist2 :
     (5 ≤ length (CamDist2 (Device_GetCameraCalibration mode (device_ s)).1))%nat) :
  let raw := (Device_GetCameraCalibration mode (device_ s)).1 in
  ∃ si,
    result (GetStreamIntrinsics mode s) = Some si
    ∧ stream_intrinsics_ (state_after (GetStreamIntrinsics mode s)) = Some si
    ∧ lens_derived_from (InImgWidth raw) (InImgHeight raw)
        (CamMat1 raw) (CamDist1 raw) (left si)
    ∧ lens_derived_from (InImgWidth raw) (InImgHeight raw)
        (CamMat2 raw) (CamDist2 raw) (right si).
Proof.
  cbn zeta.
  set (raw := (Device_GetCameraCalibration mode (device_ s)).1) in *.
  assert (∀ h1 h2,
    ∃ l r,
      fill_lens (InImgWidth raw) (InImgHeight raw) (CamMat1 raw)
        (CamDist1 raw) h1 = Some l
      ∧ fill_lens (InImgWidth raw) (InImgHeight raw) (CamMat2 raw)
          (CamDist2 raw) h2 = Some r
      ∧ lens_derived_from (InImgWidth raw) (InImgHeight raw)
          (CamMat1 raw) (CamDist1 raw) l
      ∧ lens_derived_from (InImgWidth raw) (InImgHeight raw)
          (CamMat2 raw) (CamDist2 raw) r) as Hfill.
  { intros h1 h2.
    destruct (fill_lens_derived (InImgWidth raw) (InImgHeight raw)
                (CamMat1 raw) (CamDist1 raw) h1 Hmat1 Hdist1) as (l & ? & ?).
    destruct (fill_lens_derived (InImgWidth raw) (InImgHeight raw)
                (CamMat2 raw) (CamDist2 raw) h2 Hmat2 Hdist2) as (r & ? & ?).
    by exists l, r. }
  unfold GetStreamIntrinsics, GetCameraCalibration. unfold_calls.
  unfold result, state_after.
  destruct s as [d c m st ds si0 mi me]; cbn in raw |- *.
  destruct si0 as [holder|]; cbn; fold raw.
  - destruct (Hfill (left holder) (right holder)) as (l & r & -> & Hr & ? & ?).
    cbn. rewrite Hr. cbn. by eexists.
  - destruct (Hfill CameraIntrinsics_new CameraIntrinsics_new)
      as (l & r & -> & Hr & ? & ?).
    cbn. rewrite Hr. cbn. by eexists.
Qed.

End Intrinsics.

(* ================================================================= *)
(** ** The tracking invariant *)

Section TrackingInvariant.
Context `{DT : DeviceTypes}.
Context `{DA : !DeviceApi} `{CA : !ChannelsApi}
        `{MA : !MotionsApi} `{SA : !StreamsApi}.

#[local] Arguments StartDataTracking : simpl never.
#[local] Arguments StopDataTracking : simpl never.
#[local] Arguments Open : simpl never.
#[local] Arguments Close : simpl never.

Lemma for_each_reachable d c m st ops s :
  reachable d c m st s →
  reachable d c m st (state_after (for_each perform ops s)).
Proof.
  revert s. induction ops as [|o ops IH]; intros s Hs; [exact Hs|].
  cbn [for_each]. rewrite bind_run. unfold state_after at 1; cbn [fst snd].
  rewrite bind_run. unfold state_after at 1; cbn [fst snd].
  unfold ret at 1. unfold state_after at 1; cbn [fst snd].
  apply IH. by constructor.
Qed.

Lemma session_reachable d c m st ops :
  reachable d c m st (session d c m st ops).
Proof. apply for_each_reachable. constructor. Qed.

(** The four observations after [StartDataTracking]. *)
Lemma StartDataTracking_observations `{!ChannelsLaws} s :
  let s' := state_after (StartDataTracking s) in
  device_ s' = device_ s
  ∧ toggle_enabled s' = toggle_enabled s
  ∧ tracking_available s' = tracking_available s
  ∧ tracking_active s'
    = if toggle_enabled s
      then tracking_active s || tracking_available s && start_granted s
      else tracking_active s.
Proof.
  cbn zeta. rewrite StartDataTracking_run.
  unfold state_after, activation_of, toggle_enabled, tracking_available,
    tracking_active, start_granted.
  simpl_members.
  rewrite activation_available, activation_tracking. done.
Qed.

Lemma perform_Open_state params s :
  state_after (perform (op_Open params) s) = state_after (Open params s).
Proof.
  cbn [perform]. rewrite bind_run. by unfold ret, state_after.
Qed.

Lemma ctor_observations `{!ChannelsLaws} `{!MotionsLaws} d c m st :
  let s := state_after (CameraPrivate_ctor d c m st) in
  device_ s = d
  ∧ tracking_active s = Channels_IsHidTracking c
  ∧ tracking_available s = Channels_IsHidAvaliable c.
Proof.
  cbn zeta. destruct (ctor_members d c m st) as (Hd & _ & Hc & _ & _).
  unfold tracking_active, tracking_available. rewrite Hc.
  split; [done|].
  destruct (Channels_IsAvaliable c); [|done].
  by rewrite GetFiles_tracking, GetFiles_available.
Qed.

Lemma perform_preserves_active_implies
  `{!ChannelsLaws} `{!MotionsLaws} `{!StreamsLaws} o s :
  active_implies_enabled_and_available s →
  active_implies_enabled_and_available (state_after (perform o s)).
Proof.
  unfold active_implies_enabled_and_available. intros Hs.
  destruct o as [params| |sync|max_size|type].
  - rewrite perform_Open_state, Open_run.
    destruct (Device_IsOpened (device_ s)); [exact Hs|]. cbn zeta.
    destruct (Device_Open params (device_ s)) as [granted d'].
    cbn [fst snd]. destruct granted; unfold state_after; cbn [fst snd].
    + pose proof (StartDataTracking_observations (set_device d' s))
        as (_ & He & Ha & Ht).
      rewrite StartDataTracking_run in He, Ha, Ht.
      unfold state_after in He, Ha, Ht.
      unfold toggle_enabled, tracking_available, tracking_active in *.
      simpl_members. rewrite OnCameraOpen_image_info.
      rewrite Ha, Ht.
      destruct (Motions_IsMotionDatasEnabled (motions_ s)
                || Streams_IsImageInfoEnabled (streams_ s)) eqn:Hen;
        [|exact Hs].
      intros [Hx|[Hx _]%andb_true_iff]%orb_true_iff; [|done].
      by destruct (Hs Hx).
    + exact Hs.
  - cbn [perform]. rewrite Close_run.
    destruct (Device_IsOpened (device_ s)); [|exact Hs].
    rewrite StopDataTracking_run.
    unfold state_after, toggle_enabled, tracking_available, tracking_active
      in *.
    simpl_members.
    destruct (Channels_IsHidTracking (channels_ s)) eqn:Et; simpl_members.
    + by rewrite StopHidTracking_tracking.
    + by rewrite Et.
  - cbn [perform]. rewrite EnableImageInfo_run. cbn zeta.
    set (s1 := set_streams _ s).
    pose proof (StartDataTracking_observations s1) as (_ & He & Ha & Ht).
    cbn [state_after fst snd] in *. rewrite He, Ha, Ht.
    assert (toggle_enabled s1 = true) as ->.
    { unfold toggle_enabled, s1; simpl_members.
      by rewrite EnableImageInfo_enabled, orb_true_r. }
    intros Hact. split; [done|].
    apply orb_true_iff in Hact as [Hx|[Hx _]%andb_true_iff]; [|done].
    by destruct (Hs Hx).
  - cbn [perform]. rewrite EnableMotionDatas_run. cbn zeta.
    set (s1 := set_motions _ s).
    pose proof (StartDataTracking_observations s1) as (_ & He & Ha & Ht).
    cbn [state_after fst snd] in *. rewrite He, Ha, Ht.
    assert (toggle_enabled s1 = true) as ->.
    { unfold toggle_enabled, s1; simpl_members.
      by rewrite EnableMotionDatas_enabled. }
    intros Hact. split; [done|].
    apply orb_true_iff in Hact as [Hx|[Hx _]%andb_true_iff]; [|done].
    by destruct (Hs Hx).
  - cbn [perform]. rewrite EnableStreamData_run.
    unfold state_after, toggle_enabled, tracking_available, tracking_active
      in *.
    simpl_members. by rewrite EnableStreamData_image_info.
Qed.

Lemma reevaluated_tracking (enabled active available granted : bool) :
  (active = true → enabled = true ∧ available = true) →
  (active = false → available = true → granted = true) →
  (if enabled then active || available && granted else active)
  = enabled && available.
Proof.
  intros Ha Hg.
  destruct enabled, active, available, granted; cbn; try done;
    try (by destruct Ha); by (discriminate Hg).
Qed.

Lemma start_granted_when_idle `{!ChannelsLaws} s :
  grants_start_when_idle →
  tracking_active s = false →
  tracking_available s = true → start_granted s = true.
Proof.
  intros Hg Ht Ha.
  apply Hg; by rewrite ?register_callbacks_tracking,
    ?register_callbacks_available.
Qed.

Lemma StartDataTracking_reevaluates `{!ChannelsLaws} s :
  grants_start_when_idle →
  active_implies_enabled_and_available s →
  tracking_iff_enabled_and_available (state_after (StartDataTracking s)).
Proof.
  intros Hg Hs. unfold tracking_iff_enabled_and_available.
  pose proof (StartDataTracking_observations s) as (_ & He & Ha & Ht).
  cbn zeta in *. rewrite He, Ha, Ht.
  apply reevaluated_tracking; [exact Hs|].
  by apply start_granted_when_idle.
Qed.

Lemma unless_suspended_active_implies s b :
  tracking_iff_unless_suspended s b →
  active_implies_enabled_and_available s.
Proof.
  unfold tracking_iff_unless_suspended, active_implies_enabled_and_available.
  intros ->. by intros [[? ?]%andb_true_iff _]%andb_true_iff.
Qed.

Lemma unless_suspended_false s :
  tracking_iff_enabled_and_available s →
  tracking_iff_unless_suspended s false.
Proof.
  unfold tracking_iff_enabled_and_available, tracking_iff_unless_suspended.
  intros ->. by rewrite andb_true_r.
Qed.

Lemma perform_keeps_unless_suspended
  `{!ChannelsLaws} `{!MotionsLaws} `{!StreamsLaws} o s b :
  grants_start_when_idle →
  tracking_iff_unless_suspended s b →
  tracking_iff_unless_suspended (state_after (perform o s)) (suspends o s b).
Proof.
  intros Hg HK.
  pose proof (unless_suspended_active_implies s b HK) as HA.
  destruct o as [params| |sync|max_size|type].
  - rewrite perform_Open_state, Open_run. cbn [suspends].
    destruct (Device_IsOpened (device_ s)) eqn:Hop; [exact HK|]. cbn zeta.
    destruct (Device_Open params (device_ s)) as [granted d'].
    cbn [fst snd]. destruct granted; rewrite state_after_tuple.
    + apply unless_suspended_false.
      pose proof (StartDataTracking_reevaluates (set_device d' s) Hg HA)
        as Hre.
      rewrite StartDataTracking_run in Hre.
      unfold tracking_iff_enabled_and_available, state_after, toggle_enabled,
        tracking_available, tracking_active in *.
      simpl_members. by rewrite OnCameraOpen_image_info.
    + exact HK.
  - cbn [perform suspends]. rewrite Close_run.
    destruct (Device_IsOpened (device_ s)) eqn:Hop; [|exact HK].
    rewrite StopDataTracking_run.
    unfold tracking_iff_unless_suspended, state_after, toggle_enabled,
      tracking_available, tracking_active in *.
    simpl_members. rewrite andb_false_r.
    destruct (Channels_IsHidTracking (channels_ s)) eqn:Et; simpl_members.
    + apply StopHidTracking_tracking.
    + exact Et.
  - cbn [perform suspends]. rewrite EnableImageInfo_run. cbn zeta.
    rewrite !state_after_tuple. apply unless_suspended_false.
    apply StartDataTracking_reevaluates; [done|].
    intros Hx. destruct (HA Hx) as [_ ?]. split; [|done].
    unfold toggle_enabled; simpl_members.
    by rewrite EnableImageInfo_enabled, orb_true_r.
  - cbn [perform suspends]. rewrite EnableMotionDatas_run. cbn zeta.
    rewrite !state_after_tuple. apply unless_suspended_false.
    apply StartDataTracking_reevaluates; [done|].
    intros Hx. destruct (HA Hx) as [_ ?]. split; [|done].
    unfold toggle_enabled; simpl_members.
    by rewrite EnableMotionDatas_enabled.
  - cbn [perform suspends]. rewrite EnableStreamData_run.
    unfold tracking_iff_unless_suspended, state_after, toggle_enabled,
      tracking_available, tracking_active in *.
    simpl_members. by rewrite EnableStreamData_image_info.
Qed.

Lemma for_each_perform_cons o ops s :
  state_after (for_each perform (o :: ops) s)
  = state_after (for_each perform ops (state_after (perform o s))).
Proof.
  cbn [for_each]. rewrite bind_run, state_after_tuple.
  by rewrite bind_run, state_after_tuple.
Qed.

Lemma for_each_keeps_unless_suspended
  `{!ChannelsLaws} `{!MotionsLaws} `{!StreamsLaws} ops s b :
  grants_start_when_idle →
  tracking_iff_unless_suspended s b →
  tracking_iff_unless_suspended (state_after (for_each perform ops s))
    (suspended_after ops s b).
Proof.
  intros Hg. revert s b. induction ops as [|o ops IH]; intros s b HK;
    [exact HK|].
  rewrite for_each_perform_cons. cbn [suspended_after].
  apply IH. by apply perform_keeps_unless_suspended.
Qed.

(** Every reachable state is the state of a session. *)
Lemma reachable_is_session d c m st s :
  reachable d c m st s → ∃ ops, s = session d c m st ops.
Proof.
  induction 1 as [|s o _ [ops ->]]; [by exists []|].
  exists (ops ++ [o]). unfold session.
  generalize (state_after (CameraPrivate_ctor d c m st)) as s0.
  induction ops as [|o' ops IH]; intros s0.
  - cbn [app]. rewrite for_each_perform_cons. done.
  - cbn [app]. rewrite !for_each_perform_cons. apply IH.
Qed.

Lemma reachable_active_implies
  `{!ChannelsLaws} `{!MotionsLaws} `{!StreamsLaws} d c m st s :
  Channels_IsHidTracking c = false →
  reachable d c m st s →
  active_implies_enabled_and_available s.
Proof.
  intros Hidle Hreach. induction Hreach as [|s o _ IH].
  - destruct (ctor_observations d c m st) as (_ & Ht & _).
    intros Hx. cbn zeta in Ht. congruence.
  - by apply perform_preserves_active_implies.
Qed.

(** C2 (as the code has it). On a side channel that starts idle, in
    the state reached by construction followed by any sequence of
    [Open], [Close], [EnableImageInfo], [EnableMotionDatas] and
    [EnableStreamData] (every reachable state is one,
    [reachable_is_session]): tracking is active only if a toggle is
    enabled and the side channel is available.  When, in addition, both
    toggles are off at construction and the channel grants the start
    requests it receives while idle and available, tracking is active if
    and only if a toggle is enabled, the channel is available and
    tracking is not suspended; it is suspended from a [Close] that finds
    the device opened until the next [Open] that opens the device or the
    next [EnableImageInfo] or [EnableMotionDatas]. *)
Theorem tracking_invariant
  `{!ChannelsLaws} `{!MotionsLaws} `{!StreamsLaws}
  (d : Device) (c : Channels) (m : Motions) (st : Streams)
  (ops : list Operation)
  (Hidle : Channels_IsHidTracking c = false) :
  let s := session d c m st ops in
  (tracking_active s = true →
   toggle_enabled s = true ∧ tracking_available s = true)
  ∧ (Motions_IsMotionDatasEnabled m = false →
     Streams_IsImageInfoEnabled st = false →
     grants_start_when_idle →
     tracking_active s
     = toggle_enabled s && tracking_available s
       && negb (tracking_suspended d c m st ops)).
Proof.
  cbn zeta. split.
  { apply (reachable_active_implies d c m st); [done|].
    apply session_reachable. }
  intros Hm Hi Hg.
  apply (for_each_keeps_unless_suspended ops); [done|].
  unfold tracking_iff_unless_suspended.
  destruct (ctor_observations d c m st) as (_ & -> & _).
  destruct (ctor_members d c m st) as (_ & Hst & _ & _ & Hmo).
  unfold toggle_enabled. cbn zeta in Hst, Hmo. rewrite Hst, Hmo, Hi, Hidle.
  destruct (_ && _ && _); by rewrite ?SetMotionIntrinsics_enabled, Hm.
Qed.

End TrackingInvariant.

(* ================================================================= *)
(** ** Further properties of the methods *)

Section FurtherProperties.
Context `{DT : DeviceTypes}.
Context `{DA : !DeviceApi} `{CA : !ChannelsApi}
        `{MA : !MotionsApi} `{SA : !StreamsApi}.
Context `{MD : !MotionDefaults} `{CW : !ChannelsWriteApi}
        `{DS : !DeviceStereoApi}.

#[local] Arguments StartDataTracking : simpl never.
#[local] Arguments StopDataTracking : simpl never.
#[local] Arguments Open : simpl never.
#[local] Arguments Close : simpl never.

(** *** Open *)

(** X1. [Open] reports the state of the device and nothing else: it
    returns [SUCCESS] and leaves the device opened, or returns
    [ERROR_FAILURE] and leaves it closed; and the code it returns does not
    depend on the side channel, the toggles or the outcome of the tracking
    activation it triggers. *)
Theorem Open_reports_device_state `{!DeviceLaws}
  (params : OpenParams) (s : CameraPrivate)
  (c : Channels) (m : Motions) (st : Streams) :
  (result (Open params s) = SUCCESS
   ∧ Device_IsOpened (device_ (state_after (Open params s))) = true
   ∨ result (Open params s) = ERROR_FAILURE
     ∧ Device_IsOpened (device_ (state_after (Open params s))) = false)
  ∧ result (Open params (set_channels c (set_motions m (set_streams st s))))
    = result (Open params s).
Proof.
  rewrite !Open_run. simpl_members.
  destruct (Device_IsOpened (device_ s)) eqn:Hop.
  { split; [left; split; [done|exact Hop]|done]. }
  cbn zeta.
  pose proof (Device_Open_opened params (device_ s) Hop) as Hlaw.
  destruct (Device_Open params (device_ s)) as [[] d']; cbn [fst snd] in *;
    (split; [|done]).
  - left. split; [done|exact Hlaw].
  - right. split; [done|exact Hlaw].
Qed.

(** X13. After an [Open] that returned [SUCCESS], a further [Open],
    with any parameters, only asks [IsOpened]: the transport is not asked
    again, tracking is not re-evaluated and the stream collaborator is
    not notified a second time.  After an [Open] that failed, a further
    [Open] asks the transport again. *)
Theorem Open_after_Open `{!DeviceLaws}
  (params params' : OpenParams) (s : CameraPrivate) :
  let s1 := state_after (Open params s) in
  match result (Open params s) with
  | SUCCESS => Open params' s1 = (SUCCESS, s1, [OnDevice call_Device_IsOpened])
  | _ =>
      take 2 (trace (Open params' s1))
      = [OnDevice call_Device_IsOpened; OnDevice (call_Device_Open params')]
  end.
Proof.
  cbn zeta.
  assert (match result (Open params s) with
          | SUCCESS =>
              Device_IsOpened (device_ (state_after (Open params s))) = true
          | _ =>
              Device_IsOpened (device_ (state_after (Open params s))) = false
          end) as Hdev.
  { rewrite Open_run.
    destruct (Device_IsOpened (device_ s)) eqn:Hop; [done|]. cbn zeta.
    pose proof (Device_Open_opened params (device_ s) Hop) as Hlaw.
    by destruct (Device_Open params (device_ s)) as [[] d']. }
  rewrite (Open_run params' (state_after _)).
  destruct (result (Open params s)); rewrite Hdev; try done;
    cbn zeta; by destruct (Device_Open params' _).1.
Qed.

(** *** StartDataTracking and StopDataTracking *)

Lemma activation_result_tracking `{!ChannelsLaws} me ie c :
  me || ie = true →
  (tracking_activation me ie c).1.1
  = Channels_IsHidTracking (tracking_activation me ie c).1.2.
Proof.
  intros Hon. unfold tracking_activation.
  replace (negb me && negb ie) with false by (by destruct me, ie).
  cbn zeta.
  destruct (Channels_IsHidTracking (register_callbacks me ie c)) eqn:Et;
    [by cbn; rewrite Et|].
  destruct (Channels_IsHidAvaliable (register_callbacks me ie c)); cbn.
  - symmetry. by apply StartHidTracking_tracking.
  - by rewrite Et.
Qed.

(** X2. With a toggle enabled, the value [StartDataTracking] returns is
    whether tracking is active when it returns; with both toggles off it
    returns [false] and leaves the object as it was. *)
Theorem StartDataTracking_result_is_tracking `{!ChannelsLaws}
  (s : CameraPrivate) :
  if toggle_enabled s
  then result (StartDataTracking s)
       = tracking_active (state_after (StartDataTracking s))
  else result (StartDataTracking s) = false
       ∧ state_after (StartDataTracking s) = s.
Proof.
  rewrite StartDataTracking_run.
  unfold result, state_after, toggle_enabled, tracking_active, activation_of.
  simpl_members.
  destruct (Motions_IsMotionDatasEnabled (motions_ s)
            || Streams_IsImageInfoEnabled (streams_ s)) eqn:Hon.
  - by apply activation_result_tracking.
  - apply orb_false_iff in Hon as [-> ->]. cbn. by destruct s.
Qed.

(** X3. [StartDataTracking] is idempotent once it has succeeded: called
    again on the object it left, it returns [true] again, re-registers
    the callbacks of the enabled toggles, asks the channel whether it is
    tracking, and issues no second start request. *)
Theorem StartDataTracking_twice `{!ChannelsLaws} (s : CameraPrivate)
  (Hfirst : result (StartDataTracking s) = true) :
  let s1 := state_after (StartDataTracking s) in
  result (StartDataTracking s1) = true
  ∧ channels_calls (trace (StartDataTracking s1))
    = registrations (Motions_IsMotionDatasEnabled (motions_ s))
        (Streams_IsImageInfoEnabled (streams_ s))
      ++ [call_IsHidTracking]
  ∧ tracking_active (state_after (StartDataTracking s1)) = true.
Proof.
  cbn zeta. revert Hfirst. rewrite !StartDataTracking_run.
  unfold result, state_after, trace, tracking_active, activation_of.
  simpl_members. rewrite channels_calls_activation_trace.
  set (me := Motions_IsMotionDatasEnabled (motions_ s)).
  set (ie := Streams_IsImageInfoEnabled (streams_ s)).
  set (c := channels_ s). intros Hfirst.
  assert (me || ie = true) as Hon.
  { destruct me, ie; try done; by cbn in Hfirst. }
  assert (Channels_IsHidTracking (tracking_activation me ie c).1.2 = true)
    as Ht by (by rewrite <- activation_result_tracking).
  set (c1 := (tracking_activation me ie c).1.2) in *.
  unfold tracking_activation at 1 2 3.
  replace (negb me && negb ie) with false by (by destruct me, ie).
  cbn zeta. rewrite !register_callbacks_tracking, !Ht. cbn [fst snd].
  by rewrite register_callbacks_tracking.
Qed.

(** X4. After [StopDataTracking] the channel is not tracking, and a
    second [StopDataTracking] only asks the channel whether it is
    tracking: no stop request is issued on an idle channel, and the
    object is left as it was. *)
Theorem StopDataTracking_twice `{!ChannelsLaws} (s : CameraPrivate) :
  let s1 := state_after (StopDataTracking s) in
  tracking_active s1 = false
  ∧ StopDataTracking s1 = ((), s1, [OnChannels call_IsHidTracking])
  ∧ channels_calls (trace (StopDataTracking s))
    = call_IsHidTracking
      :: (if tracking_active s then [call_StopHidTracking] else []).
Proof.
  cbn zeta.
  assert (tracking_active (state_after (StopDataTracking s)) = false) as Hidle.
  { rewrite StopDataTracking_run. unfold state_after, tracking_active.
    cbn [fst snd].
    destruct (Channels_IsHidTracking (channels_ s)) eqn:Et; simpl_members.
    - apply StopHidTracking_tracking.
    - done. }
  split; [exact Hidle|]. split.
  - rewrite (StopDataTracking_run (state_after _)).
    unfold tracking_active in Hidle. by rewrite Hidle.
  - rewrite StopDataTracking_run. unfold trace, tracking_active; cbn [snd].
    by destruct (Channels_IsHidTracking (channels_ s)).
Qed.

(** *** Construction and the cached records *)

(** X5. The collaborator calls of construction.  It asks the side
    channel whether it is available, from [Init] and again from
    [ReadDeviceFlash], and only if it is reads the flash once; exactly
    when that read succeeded and delivered inertial parameters marked ok
    it hands the intrinsics to [Motions::SetMotionIntrinsics], once, and
    otherwise leaves the inertial collaborator as it was made.  It makes
    no call on the device or on the streams and leaves both as they were
    made, registers no callback and starts no tracking.  On an
    unavailable channel the object is left as the member initialisers
    made it. *)
Theorem construction_collaborator_calls
  (d : Device) (c : Channels) (m : Motions) (st : Streams) :
  let read := Channels_GetFiles Descriptors_new c in
  let populated :=
    Channels_IsAvaliable c && read.1.1.1 && ok read.1.2 in
  let r := CameraPrivate_ctor d c m st in
  channels_calls (trace r)
  = (if Channels_IsAvaliable c
     then [call_IsAvaliable; call_IsAvaliable; call_GetFiles]
     else [call_IsAvaliable])
  ∧ motions_calls (trace r)
    = (if populated then [call_SetMotionIntrinsics] else [])
  ∧ device_calls (trace r) = []
  ∧ streams_calls (trace r) = []
  ∧ motions_ (state_after r)
    = (if populated
       then Motions_SetMotionIntrinsics
              {| accel := in_accel read.1.2; gyro := in_gyro read.1.2 |} m
       else m)
  ∧ device_ (state_after r) = d
  ∧ streams_ (state_after r) = st
  ∧ (if Channels_IsAvaliable c then True
     else state_after r = CameraPrivate_new d c m st).
Proof.
  cbn zeta.
  destruct (ctor_run d c m st) as (Hc & Hd & _).
  destruct (ctor_collaborators d c m st) as (Hs & Hm & Hmo & Hun).
  destruct (ctor_members d c m st) as (Hdev & Hst & _).
  repeat split; try done.
  destruct (Channels_IsAvaliable c); [done|by apply Hun].
Qed.

Lemma GetMotionIntrinsics_run s :
  GetMotionIntrinsics s
  = match motion_intrinsics_ s with
    | Some i => (i, s, [])
    | None =>
        ({| accel := ImuIntrinsics_default; gyro := ImuIntrinsics_default |},
         s, [Log LOGE "Error: Motion intrinsics not found"])
    end.
Proof.
  unfold GetMotionIntrinsics. unfold_calls.
  by destruct (motion_intrinsics_ s).
Qed.

Lemma GetMotionExtrinsics_run s :
  GetMotionExtrinsics s
  = match motion_extrinsics_ s with
    | Some e => (e, s, [])
    | None =>
        (MotionExtrinsics_default, s,
         [Log LOGE "Error: Motion extrinsics not found"])
    end.
Proof.
  unfold GetMotionExtrinsics. unfold_calls.
  by destruct (motion_extrinsics_ s).
Qed.

(** X6. On the object just constructed, [GetMotionIntrinsics] and
    [GetMotionExtrinsics] return exactly the accelerometer, gyroscope and
    lens-to-sensor records the flash read delivered, without logging,
    when the channel was available, the read succeeded and the inertial
    parameters were flagged ok; in every other case they return the
    default objects and log an error.  Neither changes the object. *)
Theorem motion_calibration_after_construction
  (d : Device) (c : Channels) (m : Motions) (st : Streams) :
  let s := state_after (CameraPrivate_ctor d c m st) in
  let read := Channels_GetFiles Descriptors_new c in
  if Channels_IsAvaliable c && read.1.1.1 && ok read.1.2
  then
    GetMotionIntrinsics s
    = ({| accel := in_accel read.1.2; gyro := in_gyro read.1.2 |}, s, [])
    ∧ GetMotionExtrinsics s = (ex_left_to_imu read.1.2, s, [])
  else
    GetMotionIntrinsics s
    = ({| accel := ImuIntrinsics_default; gyro := ImuIntrinsics_default |},
       s, [Log LOGE "Error: Motion intrinsics not found"])
    ∧ GetMotionExtrinsics s
      = (MotionExtrinsics_default, s,
         [Log LOGE "Error: Motion extrinsics not found"]).
Proof.
  cbn zeta. rewrite GetMotionIntrinsics_run, GetMotionExtrinsics_run.
  destruct (ctor_run d c m st) as (_ & _ & -> & -> & _).
  by destruct (Channels_IsAvaliable c && _ && _).
Qed.

Lemma perform_keeps_caches o s :
  descriptors_ (state_after (perform o s)) = descriptors_ s
  ∧ motion_intrinsics_ (state_after (perform o s)) = motion_intrinsics_ s
  ∧ motion_extrinsics_ (state_after (perform o s)) = motion_extrinsics_ s.
Proof.
  destruct o as [params| |sync|max_size|type];
    [rewrite perform_Open_state|cbn [perform]..].
  - rewrite Open_run.
    destruct (Device_IsOpened (device_ s)); [done|]. cbn zeta.
    by destruct (Device_Open params (device_ s)).1.
  - rewrite Close_run. destruct (Device_IsOpened (device_ s)); [|done].
    rewrite StopDataTracking_run, !state_after_tuple. simpl_members.
    by destruct (Channels_IsHidTracking (channels_ s)).
  - rewrite EnableImageInfo_run. cbn zeta.
    by rewrite state_after_tuple, StartDataTracking_run, state_after_tuple.
  - rewrite EnableMotionDatas_run. cbn zeta.
    by rewrite state_after_tuple, StartDataTracking_run, state_after_tuple.
  - by rewrite EnableStreamData_run.
Qed.

Lemma for_each_keeps_caches ops s :
  descriptors_ (state_after (for_each perform ops s)) = descriptors_ s
  ∧ motion_intrinsics_ (state_after (for_each perform ops s))
    = motion_intrinsics_ s
  ∧ motion_extrinsics_ (state_after (for_each perform ops s))
    = motion_extrinsics_ s.
Proof.
  revert s. induction ops as [|o ops IH]; intros s; [done|].
  rewrite for_each_perform_cons.
  destruct (IH (state_after (perform o s))) as (-> & -> & ->).
  apply perform_keeps_caches.
Qed.

(** X7. The records read from the flash are fixed at construction: no
    sequence of [Open], [Close], [EnableImageInfo], [EnableMotionDatas]
    and [EnableStreamData] changes the cached descriptors, motion
    intrinsics or motion extrinsics.  Throughout the session the two
    motion records are present together or absent together, and present
    only if the descriptors are. *)
Theorem cached_records_fixed_at_construction
  (d : Device) (c : Channels) (m : Motions) (st : Streams)
  (ops : list Operation) :
  let s0 := state_after (CameraPrivate_ctor d c m st) in
  let s := session d c m st ops in
  descriptors_ s = descriptors_ s0
  ∧ motion_intrinsics_ s = motion_intrinsics_ s0
  ∧ motion_extrinsics_ s = motion_extrinsics_ s0
  ∧ (is_Some (motion_intrinsics_ s) ↔ is_Some (motion_extrinsics_ s))
  ∧ (is_Some (motion_intrinsics_ s) → is_Some (descriptors_ s)).
Proof.
  cbn zeta. unfold session.
  destruct (for_each_keeps_caches ops
              (state_after (CameraPrivate_ctor d c m st))) as (-> & -> & ->).
  destruct (ctor_run d c m st) as (_ & _ & -> & -> & _).
  destruct (ctor_members d c m st) as (_ & _ & _ & -> & _).
  do 3 (split; [done|]).
  destruct (Channels_IsAvaliable c); cbn; [|by split; [split|]; intros []].
  destruct (_ && _); split; try done; by split; intros [].
Qed.

(** *** The toggles *)

Lemma perform_toggles `{!MotionsLaws} `{!StreamsLaws} o s :
  Motions_IsMotionDatasEnabled (motions_ (state_after (perform o s)))
  = Motions_IsMotionDatasEnabled (motions_ s) || enables_motion_datas [o]
  ∧ Streams_IsImageInfoEnabled (streams_ (state_after (perform o s)))
    = Streams_IsImageInfoEnabled (streams_ s) || enables_image_info [o].
Proof.
  destruct o as [params| |sync|max_size|type];
    [rewrite perform_Open_state|cbn [perform]..];
    cbn [enables_motion_datas enables_image_info existsb];
    rewrite ?orb_false_r, ?orb_true_r.
  - rewrite Open_run.
    destruct (Device_IsOpened (device_ s)); [done|]. cbn zeta.
    destruct (Device_Open params (device_ s)).1;
      rewrite state_after_tuple; simpl_members; [|done].
    by rewrite OnCameraOpen_image_info.
  - rewrite Close_run. destruct (Device_IsOpened (device_ s)); [|done].
    rewrite StopDataTracking_run, !state_after_tuple. simpl_members.
    rewrite OnCameraClose_image_info.
    by destruct (Channels_IsHidTracking (channels_ s)).
  - rewrite EnableImageInfo_run. cbn zeta.
    rewrite state_after_tuple, StartDataTracking_run, state_after_tuple.
    simpl_members. by rewrite EnableImageInfo_enabled.
  - rewrite EnableMotionDatas_run. cbn zeta.
    rewrite state_after_tuple, StartDataTracking_run, state_after_tuple.
    simpl_members. by rewrite EnableMotionDatas_enabled.
  - rewrite EnableStreamData_run, state_after_tuple. simpl_members.
    by rewrite EnableStreamData_image_info.
Qed.

(** X8. The toggles only ever go from off to on: after any sequence of
    [Open], [Close], [EnableImageInfo], [EnableMotionDatas] and
    [EnableStreamData], inertial data is enabled exactly if it was
    enabled before or the sequence holds an [EnableMotionDatas], and
    image-info exactly if it was enabled before or the sequence holds an
    [EnableImageInfo]; [Close] in particular disables nothing. *)
Theorem toggles_after_operations `{!MotionsLaws} `{!StreamsLaws}
  (ops : list Operation) (s : CameraPrivate) :
  let s' := state_after (for_each perform ops s) in
  Motions_IsMotionDatasEnabled (motions_ s')
  = Motions_IsMotionDatasEnabled (motions_ s) || enables_motion_datas ops
  ∧ Streams_IsImageInfoEnabled (streams_ s')
    = Streams_IsImageInfoEnabled (streams_ s) || enables_image_info ops.
Proof.
  cbn zeta. revert s. induction ops as [|o ops IH]; intros s.
  { cbn. by rewrite !orb_false_r. }
  rewrite for_each_perform_cons.
  destruct (IH (state_after (perform o s))) as (-> & ->).
  destruct (perform_toggles o s) as (-> & ->).
  unfold enables_motion_datas, enables_image_info. cbn [existsb].
  by rewrite !orb_false_r, !orb_assoc.
Qed.

(** *** Stream intrinsics and extrinsics *)

Lemma copy_coeffs_any_holder (src : list scalar) (d1 d2 : vec scalar 5) :
  copy_coeffs src d1 = copy_coeffs src d2.
Proof.
  inv_vec d1; intros a0 a1 a2 a3 a4. inv_vec d2; intros b0 b1 b2 b3 b4.
  by destruct src as [|x0 [|x1 [|x2 [|x3 [|x4 rest]]]]].
Qed.

Lemma fill_lens_any_holder w h (mat dist : list scalar) l1 l2 :
  fill_lens w h mat dist l1 = fill_lens w h mat dist l2.
Proof.
  unfold fill_lens.
  by rewrite (copy_coeffs_any_holder dist (coeffs l1) (coeffs l2)).
Qed.

(** X9. [GetStreamIntrinsics] never answers from its cache: for every
    object and every content of the cached holder it asks the transport
    for the calibration record once, makes no call on the side channel,
    and returns what the record alone determines; when it returns a
    holder, that holder is what the cache then contains. *)
Theorem GetStreamIntrinsics_fresh_fetch (mode : StreamMode)
  (s : CameraPrivate) (cached : option StreamIntrinsics) :
  let r := GetStreamIntrinsics mode s in
  result (GetStreamIntrinsics mode (set_stream_intrinsics cached s)) = result r
  ∧ device_calls (trace r) = [call_Device_GetCameraCalibration mode]
  ∧ channels_calls (trace r) = []
  ∧ (result r = None ∨ stream_intrinsics_ (state_after r) = result r).
Proof.
  cbn zeta.
  unfold GetStreamIntrinsics, GetCameraCalibration. unfold_calls.
  unfold result, state_after, trace.
  destruct s as [d c m st ds si0 mi me]; cbn.
  destruct cached as [h|], si0 as [h0|]; cbn;
    repeat match goal with
    | |- context [fill_lens ?w ?hh ?mat ?dist ?l] =>
        lazymatch l with
        | CameraIntrinsics_new => fail
        | _ => rewrite (fill_lens_any_holder w hh mat dist l
                          CameraIntrinsics_new)
        end
    end;
    repeat match goal with
    | |- context [fill_lens ?w ?hh ?mat ?dist CameraIntrinsics_new] =>
        destruct (fill_lens w hh mat dist CameraIntrinsics_new); cbn
    end;
    auto.
Qed.

Ltac fin3_cases i :=
  inv_fin i; [|intros i; inv_fin i; [|intros i; inv_fin i;
                                        [|intros i; inv_fin i]]].

(** X10. For a record whose rotation array has nine entries and whose
    translation array has three, [GetStreamExtrinsics] returns, and leaves
    in its holder, the rotation matrix whose row [i], column [j] is entry
    [3*i+j] of the array and the translation vector whose entry [j] is
    entry [j] of the array, whatever the holder contained before; it asks
    the transport for the record once. *)
Theorem GetStreamExtrinsics_reshape (mode : StreamMode) (s : CameraPrivate)
  (cached : option StreamExtrinsics)
  (Hrot : length (Device_RotaMat mode (device_ s)) = 9%nat)
  (Htr : length (Device_TranMat mode (device_ s)) = 3%nat) :
  ∃ ex,
    result (GetStreamExtrinsics mode cached s) = (Some ex, Some ex)
    ∧ (∀ i j : fin 3,
         Device_RotaMat mode (device_ s)
           !! (3 * fin_to_nat i + fin_to_nat j)%nat
         = Some ((rotation ex !!! i) !!! j))
    ∧ (∀ j : fin 3,
         Device_TranMat mode (device_ s) !! fin_to_nat j
         = Some (translation ex !!! j))
    ∧ device_calls (trace (GetStreamExtrinsics mode cached s))
      = [call_Device_GetCameraCalibration mode].
Proof.
  unfold GetStreamExtrinsics, GetCameraCalibration. unfold_calls.
  unfold result, trace. destruct s as [d c m st ds si0 mi me]; cbn in *.
  destruct (Device_RotaMat mode d)
    as [|r0 [|r1 [|r2 [|r3 [|r4 [|r5 [|r6 [|r7 [|r8 [|]]]]]]]]]];
    try discriminate.
  destruct (Device_TranMat mode d) as [|t0 [|t1 [|t2 [|]]]]; try discriminate.
  set (holder := default StreamExtrinsics_new cached).
  destruct holder as [rot tr].
  inv_vec rot; intros row0 row1 row2.
  inv_vec row0; intros a0 a1 a2. inv_vec row1; intros a3 a4 a5.
  inv_vec row2; intros a6 a7 a8. inv_vec tr; intros b0 b1 b2.
  cbn. eexists. split; [reflexivity|]. cbn.
  split; [|split; [|reflexivity]].
  - intros i j. fin3_cases i; fin3_cases j; reflexivity.
  - intros j. fin3_cases j; reflexivity.
Qed.

(** *** Writing the flash *)

(** X11. [WriteDeviceFlash] refuses on an unavailable channel: it
    returns [false], logs a warning and makes no write.  On an available
    channel it makes exactly one [SetFiles] call with its three arguments
    and returns what that call returns.  In neither case does it refresh
    the records cached at construction: [GetDescriptor],
    [GetMotionIntrinsics] and [GetMotionExtrinsics] answer after the write
    as they did before it. *)
Theorem WriteDeviceFlash_guard_and_cache
  (desc : option Descriptors) (imu_params : option ImuParams)
  (spec_version : option Version) (s : CameraPrivate) (tag : Descriptor) :
  let r := WriteDeviceFlash desc imu_params spec_version s in
  let write :=
    Channels_SetFiles desc imu_params spec_version (channels_ s) in
  r = (if Channels_IsAvaliable (channels_ s)
       then (write.1, set_channels write.2 s,
             [inl (OnChannels call_IsAvaliable);
              inr (call_SetFiles desc imu_params spec_version)])
       else (false, s,
             [inl (OnChannels call_IsAvaliable);
              inl (Log LOGW
                     "Data channel is unavaliable, could not write device datas.")]))
  ∧ result (GetDescriptor tag r.1.2) = result (GetDescriptor tag s)
  ∧ result (GetMotionIntrinsics r.1.2) = result (GetMotionIntrinsics s)
  ∧ result (GetMotionExtrinsics r.1.2) = result (GetMotionExtrinsics s).
Proof.
  cbn zeta. rewrite !GetDescriptor_run, !GetMotionIntrinsics_run,
    !GetMotionExtrinsics_run.
  unfold WriteDeviceFlash. unfold_calls. unfold result.
  destruct s as [d c m st ds si0 mi me]; cbn.
  destruct (Channels_IsAvaliable c); unfold set_channels; cbn;
    by destruct mi, me.
Qed.

(** *** Probing the descriptor cache *)

(** X12. [GetDescriptor(NOMINAL_BASELINE)] returns the empty string
    exactly when the descriptor cache is null: the decimal text of a
    number is never empty, so this tag tells a caller whether the cache
    was populated, which the string-valued tags do not (a populated
    record with an empty name also yields the empty string). *)
Theorem nominal_baseline_probes_the_cache (s : CameraPrivate)
  (d : Descriptors) :
  (result (GetDescriptor NOMINAL_BASELINE s) = "" ↔ descriptors_ s = None)
  ∧ result (GetDescriptor DEVICE_NAME (set_descriptors (Some d) s)) = name d.
Proof.
  rewrite !GetDescriptor_run. unfold result; simpl_members. split; [|done].
  destruct (descriptors_ s) as [d0|]; cbn; [|done].
  split; [|done]. intros Hempty. by apply std_to_string_nonempty in Hempty.
Qed.

End FurtherProperties.

(* ================================================================= *)
(** ** The theorems at work on the simulated device *)

Import Sim.

Lemma Sim_grants_start_when_idle : grants_start_when_idle.
Proof. intros c _ Hc. cbn in *. by rewrite Hc. Qed.

#[global] Instance Sim_device_laws : DeviceLaws.
Proof.
  split; [reflexivity|].
  intros params d Hd; cbn in *. destruct (accepts_open d); cbn; congruence.
Qed.

#[global] Instance Sim_channels_laws : ChannelsLaws.
Proof.
  split; intros; cbn in *; try reflexivity;
    try (destruct (flash c) as [[? ?]|]; reflexivity);
    try (destruct (hid_available c) eqn:E; cbn; congruence).
Qed.

#[global] Instance Sim_motions_laws : MotionsLaws.
Proof. split; reflexivity. Qed.

#[global] Instance Sim_streams_laws : StreamsLaws.
Proof. split; reflexivity. Qed.

(** C10 on the camera just constructed, before any [Open]. *)
Lemma StartDataTracking_ignores_open_state_witness :
  Device_IsOpened (device_ fresh_camera) = false
  ∧ tracking_available fresh_camera = true
  ∧ tracking_active fresh_camera = false
  ∧ channels_calls (trace (EnableMotionDatas 100 fresh_camera))
    = [call_SetImuDataCallback bind_Motions_OnImuDataCallback;
       call_IsHidTracking; call_IsHidAvaliable; call_StartHidTracking]
  ∧ tracking_active (state_after (EnableMotionDatas 100 fresh_camera)) = true.
Proof.
  pose proof (StartDataTracking_ignores_open_state fresh_camera 100%N true
                eq_refl eq_refl) as (_ & (Hcalls & Hactive) & _).
  do 3 (split; [reflexivity|]).
  split; [exact Hcalls | exact Hactive].
Defined.

(** C5 on three [Open] calls with different parameters. *)
Lemma Open_when_opened_witness :
  Device_IsOpened (device_ opened_camera) = true
  ∧ for_each Open [0%N; 1%N; 2%N] opened_camera
    = ([SUCCESS; SUCCESS; SUCCESS], opened_camera,
       [OnDevice call_Device_IsOpened; OnDevice call_Device_IsOpened;
        OnDevice call_Device_IsOpened]).
Proof.
  split; [reflexivity|].
  exact (proj1 (Open_when_opened opened_camera [0%N; 1%N; 2%N] eq_refl)).
Defined.

(** C6 on the device that refuses to open. *)
Lemma Open_transport_failure_witness :
  Device_IsOpened (device_ stubborn_camera) = false
  ∧ (Device_Open 0%N (device_ stubborn_camera)).1 = false
  ∧ result (Open 0%N stubborn_camera) = ERROR_FAILURE.
Proof.
  do 2 (split; [reflexivity|]).
  exact (proj1 (Open_transport_failure stubborn_camera 0%N eq_refl eq_refl)).
Defined.

(** C7 (what the code does) on the channel that is present but whose
    read fails: the cache holds the record allocated before the read and
    [GetDescriptor] answers from it. *)
Lemma descriptors_kept_after_failed_read_witness :
  let s := state_after
             (CameraPrivate_ctor good_device unreadable_channels new_motions
                new_streams) in
  Channels_IsAvaliable unreadable_channels = true
  ∧ (Channels_GetFiles Descriptors_new unreadable_channels).1.1.1 = false
  ∧ descriptors_ s = Some Descriptors_new
  ∧ motion_intrinsics_ s = None
  ∧ result (GetDescriptor NOMINAL_BASELINE s) = "0"
  ∧ trace (GetDescriptor NOMINAL_BASELINE s) = [].
Proof.
  cbn zeta. do 2 (split; [reflexivity|]).
  pose proof (descriptors_kept_after_failed_read good_device
                unreadable_channels new_motions new_streams eq_refl eq_refl)
    as (Hd & Hmi & _ & Hget & _).
  split; [exact Hd|]. split; [exact Hmi|].
  exact (Hget NOMINAL_BASELINE).
Defined.

(** C9 on the opened camera, which is not tracking: [Close], then three
    more. *)
Lemma Close_behaviour_witness :
  trace (Close opened_camera)
  = [OnDevice call_Device_IsOpened; OnChannels call_IsHidTracking;
     OnStreams call_OnCameraClose; OnDevice call_Device_Close]
  ∧ for_each (λ _ : unit, Close) [(); (); ()]
      (state_after (Close opened_camera))
    = ([(); (); ()], state_after (Close opened_camera),
       [OnDevice call_Device_IsOpened; OnDevice call_Device_IsOpened;
        OnDevice call_Device_IsOpened]).
Proof.
  pose proof (Close_behaviour opened_camera 3) as ((Ht & _) & _ & Hn & _).
  split; [exact Ht | exact Hn].
Defined.

(** C4 on the sample calibration record. *)
Lemma GetStreamIntrinsics_fields_witness :
  ∃ si,
    result (GetStreamIntrinsics 0%N fresh_camera) = Some si
    ∧ width (left si) = 1280 ∧ height (left si) = 720
    ∧ fx (left si) = 1040 ∧ fy (left si) = 1041
    ∧ cx (left si) = 641 ∧ cy (left si) = 352
    ∧ vec_to_list (coeffs (left si)) = [11; 12; 13; 14; 15]
    ∧ fx (right si) = 1050 ∧ fy (right si) = 1051
    ∧ cx (right si) = 655 ∧ cy (right si) = 364
    ∧ vec_to_list (coeffs (right si)) = [21; 22; 23; 24; 25].
Proof.
  destruct (GetStreamIntrinsics_fields (DT := types) (DA := device_api)
              0%N fresh_camera eq_refl eq_refl
              ltac:(cbn; lia) ltac:(cbn; lia))
    as (si & Hres & _ & Hl & Hr).
  exists si. split; [exact Hres|].
  destruct Hl as (? & ? & [=] & [=] & [=] & [=] & ?).
  destruct Hr as (? & ? & [=] & [=] & [=] & [=] & ?).
  by repeat split.
Defined.

(** C2 (as the code has it) on two sessions: one that is tracking, and
    the same closed again, in which tracking is suspended. *)
Lemma tracking_invariant_witness :
  Channels_IsHidTracking good_channels = false
  ∧ (tracking_active tracking_session = true →
     toggle_enabled tracking_session = true
     ∧ tracking_available tracking_session = true)
  ∧ tracking_active tracking_session
    = toggle_enabled tracking_session && tracking_available tracking_session
      && negb (tracking_suspended good_device good_channels new_motions
                 new_streams [op_EnableMotionDatas 8; op_Open 0%N])
  ∧ tracking_suspended good_device good_channels new_motions new_streams
      [op_EnableMotionDatas 8; op_Open 0%N] = false
  ∧ tracking_suspended good_device good_channels new_motions new_streams
      [op_EnableMotionDatas 8; op_Open 0%N; op_Close] = true.
Proof.
  split; [reflexivity|].
  pose proof (tracking_invariant good_device good_channels new_motions
                new_streams [op_EnableMotionDatas 8; op_Open 0%N] eq_refl)
    as [Honly Hiff].
  split; [exact Honly|].
  split; [exact (Hiff eq_refl eq_refl Sim_grants_start_when_idle)|].
  split; reflexivity.
Defined.

(** C2 as stated fails: the closed session is reachable, a toggle is
    enabled and the channel available, and tracking is not active. *)
Lemma tracking_iff_fails_after_Close :
  ¬ ∀ s, reachable good_device good_channels new_motions new_streams s →
         tracking_iff_enabled_and_available s.
Proof.
  intros Hall.
  specialize (Hall closed_session (session_reachable _ _ _ _ _)).
  vm_compute in Hall. discriminate.
Qed.

(** After the closed session, enabling image-info resumes tracking on
    the closed device: the suspension ends with the call. *)
Example tracking_resumes_after_enabling :
  let ops := [op_EnableMotionDatas 8; op_Open 0%N; op_Close;
              op_EnableImageInfo true] in
  let s := session good_device good_channels new_motions new_streams ops in
  Device_IsOpened (device_ s) = false
  ∧ tracking_active s = true
  ∧ tracking_suspended good_device good_channels new_motions new_streams ops
    = false.
Proof. by vm_compute. Qed.

(** C3 as stated fails on [EnableStreamData]. *)
Lemma EnableStreamData_does_not_reevaluate :
  ¬ every_enabling_call_reevaluates_tracking.
Proof.
  intros (_ & Hstream & _).
  specialize (Hstream 0%N idle_session).
  apply (f_equal (λ r, tracking_active (state_after r))) in Hstream.
  vm_compute in Hstream. discriminate.
Qed.

(** C7 as stated fails: on a channel that is present but whose read
    fails, the cache is not null after construction. *)
Lemma descriptors_present_after_failed_read :
  ¬ descriptors_absent_unless_read_succeeded good_device unreadable_channels
      new_motions new_streams.
Proof.
  intros Hclaim. destruct Hclaim as [Hnone _]; [by right|].
  vm_compute in Hnone. discriminate.
Qed.

(** *** Concrete runs *)

Example construction_reads_the_flash :
  descriptors_ fresh_camera = Some sample_descriptors
  ∧ motion_intrinsics_ fresh_camera = Some {| accel := 1; gyro := 2 |}
  ∧ motion_extrinsics_ fresh_camera = Some 3.
Proof. by vm_compute. Qed.

Example construction_without_channel :
  CameraPrivate_ctor good_device (new_channels false false None) new_motions
    new_streams
  = ((),
     CameraPrivate_new good_device (new_channels false false None) new_motions
       new_streams,
     [OnChannels call_IsAvaliable]).
Proof. reflexivity. Qed.

Example StartDataTracking_with_toggles_off :
  StartDataTracking fresh_camera
  = (false, fresh_camera,
     [OnMotions call_IsMotionDatasEnabled; OnStreams call_IsImageInfoEnabled]).
Proof. reflexivity. Qed.

Example EnableImageInfo_before_Open :
  trace (EnableImageInfo true fresh_camera)
  = [OnStreams (call_EnableImageInfo true);
     OnMotions call_IsMotionDatasEnabled; OnStreams call_IsImageInfoEnabled;
     OnMotions call_IsMotionDatasEnabled; OnStreams call_IsImageInfoEnabled;
     OnChannels (call_SetImgInfoCallback bind_Streams_OnImageInfoCallback);
     OnChannels call_IsHidTracking; OnChannels call_IsHidAvaliable;
     OnChannels call_StartHidTracking].
Proof. reflexivity. Qed.

Example Open_on_a_refusing_transport :
  Open 0%N stubborn_camera
  = (ERROR_FAILURE, stubborn_camera,
     [OnDevice call_Device_IsOpened; OnDevice (call_Device_Open 0%N)]).
Proof. reflexivity. Qed.

Example GetDescriptor_on_the_good_device :
  result (GetDescriptor FIRMWARE_VERSION fresh_camera) = "1.4"
  ∧ result (GetDescriptor NOMINAL_BASELINE fresh_camera) = "120"
  ∧ result (GetDescriptor (Descriptor_other 200) fresh_camera) = "".
Proof. by vm_compute. Qed.

Example GetDescriptor_after_a_failed_read :
  let camera :=
    state_after (CameraPrivate_ctor good_device unreadable_channels
                   new_motions new_streams) in
  descriptors_ camera = Some Descriptors_new
  ∧ result (GetDescriptor FIRMWARE_VERSION camera) = "0.0"
  ∧ result (GetDescriptor NOMINAL_BASELINE camera) = "0".
Proof. by vm_compute. Qed.

Example GetStreamIntrinsics_on_a_short_matrix :
  result
    (GetStreamIntrinsics 0%N
       (CameraPrivate_new (new_device true empty_calibration) good_channels
          new_motions new_streams))
  = None.
Proof. reflexivity. Qed.

(** *** The further properties on the simulated device *)

(** X1 on the device that refuses to open. *)
Lemma Open_reports_device_state_witness :
  (result (Open 0%N stubborn_camera) = SUCCESS
   ∧ Device_IsOpened (device_ (state_after (Open 0%N stubborn_camera))) = true
   ∨ result (Open 0%N stubborn_camera) = ERROR_FAILURE
     ∧ Device_IsOpened (device_ (state_after (Open 0%N stubborn_camera)))
       = false)
  ∧ result (Open 0%N (set_channels unreadable_channels
                        (set_motions new_motions
                           (set_streams new_streams stubborn_camera))))
    = result (Open 0%N stubborn_camera).
Proof.
  exact (Open_reports_device_state 0%N stubborn_camera unreadable_channels
           new_motions new_streams).
Defined.

(** X13 on the good device: the second [Open] is a query. *)
Lemma Open_after_Open_witness :
  Open 1%N opened_camera
  = (SUCCESS, opened_camera, [OnDevice call_Device_IsOpened]).
Proof.
  pose proof (Open_after_Open 0%N 1%N fresh_camera) as Hsecond.
  vm_compute in Hsecond. vm_compute. exact Hsecond.
Defined.

(** X2 on the session that is tracking. *)
Lemma StartDataTracking_result_is_tracking_witness :
  result (StartDataTracking tracking_session)
  = tracking_active (state_after (StartDataTracking tracking_session)).
Proof. exact (StartDataTracking_result_is_tracking tracking_session). Defined.

(** X3 on an object whose inertial toggle was just set. *)
Lemma StartDataTracking_twice_witness :
  let s := state_after (motions_EnableMotionDatas 8 fresh_camera) in
  result (StartDataTracking s) = true
  ∧ result (StartDataTracking (state_after (StartDataTracking s))) = true
  ∧ channels_calls (trace (StartDataTracking (state_after (StartDataTracking s))))
    = [call_SetImuDataCallback bind_Motions_OnImuDataCallback;
       call_IsHidTracking].
Proof.
  cbn zeta. split; [reflexivity|].
  pose proof (StartDataTracking_twice
                (state_after (motions_EnableMotionDatas 8 fresh_camera))
                eq_refl) as (Hres & Hcalls & _).
  split; [exact Hres | exact Hcalls].
Defined.

(** X4 on the session that is tracking. *)
Lemma StopDataTracking_twice_witness :
  tracking_active tracking_session = true
  ∧ tracking_active (state_after (StopDataTracking tracking_session)) = false
  ∧ channels_calls (trace (StopDataTracking tracking_session))
    = [call_IsHidTracking; call_StopHidTracking].
Proof.
  split; [reflexivity|].
  pose proof (StopDataTracking_twice tracking_session) as (Hidle & _ & Hcalls).
  split; [exact Hidle | exact Hcalls].
Defined.

(** X8 on a session that enables inertial data, opens and closes. *)
Lemma toggles_after_operations_witness :
  Motions_IsMotionDatasEnabled (motions_ closed_session) = true
  ∧ Streams_IsImageInfoEnabled (streams_ closed_session) = false.
Proof.
  pose proof (toggles_after_operations
                [op_EnableMotionDatas 8; op_Open 0%N; op_Close] fresh_camera)
    as Htoggles.
  vm_compute in Htoggles. vm_compute. exact Htoggles.
Defined.

(** X10 on the simulated transport. *)
Lemma GetStreamExtrinsics_reshape_witness :
  ∃ ex,
    result (GetStreamExtrinsics 0%N None fresh_camera) = (Some ex, Some ex)
    ∧ (rotation ex !!! 1%fin) !!! 2%fin = 36
    ∧ (rotation ex !!! 2%fin) !!! 0%fin = 37
    ∧ translation ex !!! 2%fin = 43.
Proof.
  destruct (GetStreamExtrinsics_reshape (DT := types) (DA := device_api)
              (DS := device_stereo_api) 0%N fresh_camera None
              eq_refl eq_refl)
    as (ex & Hres & Hrot & Htr & _).
  exists ex. split; [exact Hres|].
  pose proof (Hrot 1%fin 2%fin) as [= H12].
  pose proof (Hrot 2%fin 0%fin) as [= H20].
  pose proof (Htr 2%fin) as [= H2].
  split; [exact (eq_sym H12)|]. split; [exact (eq_sym H20)|exact (eq_sym H2)].
Defined.

(** Concrete runs of the other methods. *)

Example WriteDeviceFlash_leaves_the_cache :
  let written :=
    (WriteDeviceFlash (Some Descriptors_new) (Some sample_imu_params) None
       fresh_camera).1.2 in
  flash (channels_ written) = Some (Descriptors_new, sample_imu_params)
  ∧ result (GetDescriptor DEVICE_NAME written) = "MYNT-EYE-D1000".
Proof. by vm_compute. Qed.

Example GetMotionIntrinsics_after_a_failed_read :
  GetMotionIntrinsics
    (CameraPrivate_new good_device unreadable_channels new_motions new_streams)
  = ({| accel := 0; gyro := 0 |},
     CameraPrivate_new good_device unreadable_channels new_motions new_streams,
     [Log LOGE "Error: Motion intrinsics not found"]).
Proof. reflexivity. Qed.

Example GetStreamExtrinsics_rows :
  result (GetStreamExtrinsics 0%N None fresh_camera)
  = (Some {| rotation := [# [# 31; 32; 33]; [# 34; 35; 36]; [# 37; 38; 39]];
             translation := [# 41; 42; 43] |},
     Some {| rotation := [# [# 31; 32; 33]; [# 34; 35; 36]; [# 37; 38; 39]];
             translation := [# 41; 42; 43] |}).
Proof. reflexivity. Qed.
